(** * Pomdot: a shallow embedding of [pomdot.py] and its specification

    The development follows the layout of the program: the Python
    built-ins the program relies on ([str.strip], [str.lower], [int],
    [str], true division and float arithmetic), the value parsers, the
    progress bar, the config store, the settings resolver and [main].

    Python [str] objects are modelled by [string]; a character is its
    code point, so the model covers every text whose code points are
    below 256.  Python [int] is [Z].  Python [float] is IEEE-754
    binary64, taken from the Standard Library's [SpecFloat]. *)

From Stdlib Require Import ZArith QArith Qround Ascii String Lia.
From Stdlib Require Import Floats.SpecFloat.
From stdpp Require Import base option list gmap strings fin_maps sorting.

#[local] Set Warnings "-register-all".
#[local] Close Scope Q_scope.
#[local] Open Scope Z_scope.

(** ** Exceptions and results

    [ParserError msg] stands for [parser.error(msg)]: argparse prints the
    usage line and [msg] on the error stream and raises [SystemExit(2)],
    which no handler of the program catches.  Any other exception that
    leaves [main] ends the process with a traceback and exit status 1. *)

Inductive exn :=
  | ArgumentTypeError (msg : string)
  | ValueError (msg : string)
  | FileExistsError (msg : string)
  | OverflowError (msg : string)
  | ZeroDivisionError (msg : string)
  | IndexError (msg : string)
  | TOMLDecodeError (msg : string)
  | ParserError (msg : string).

Inductive result (A : Type) :=
  | Ok (a : A)
  | Raise (e : exn).
Arguments Ok {A} a.
Arguments Raise {A} e.

Definition bind {A B} (r : result A) (k : A -> result B) : result B :=
  match r with
  | Ok a => k a
  | Raise e => Raise e
  end.

Notation "'let*' x ':=' r 'in' k" := (bind r (fun x => k))
  (at level 10, x name, r at level 100, k at level 200).

(** ** Python built-ins on [str] and [int] *)

Module Py.

Definition code (c : ascii) : Z := Z.of_N (N_of_ascii c).

(** [str.isspace] on the code points below 256. *)
Definition isspace (c : ascii) : bool :=
  let n := code c in
  ((9 <=? n) && (n <=? 13)) || ((28 <=? n) && (n <=? 32))
  || (n =? 133) || (n =? 160).

Fixpoint lstrip (s : string) : string :=
  match s with
  | String c s' => if isspace c then lstrip s' else s
  | EmptyString => EmptyString
  end.

Fixpoint rstrip (s : string) : string :=
  match s with
  | EmptyString => EmptyString
  | String c s' =>
      match rstrip s' with
      | EmptyString => if isspace c then EmptyString else String c EmptyString
      | r => String c r
      end
  end.

(** [s.strip()] *)
Definition strip (s : string) : string := rstrip (lstrip s).

Definition lower_char (c : ascii) : ascii :=
  let n := code c in
  if ((65 <=? n) && (n <=? 90))
     || ((192 <=? n) && (n <=? 222) && negb (n =? 215))
  then ascii_of_N (Z.to_N (n + 32))
  else c.

(** [s.lower()] *)
Fixpoint lower (s : string) : string :=
  match s with
  | EmptyString => EmptyString
  | String c s' => String (lower_char c) (lower s')
  end.

(** The class [\d] on the code points below 256. *)
Definition isdigit (c : ascii) : bool :=
  let n := code c in (48 <=? n) && (n <=? 57).

Fixpoint all_digits (s : string) : bool :=
  match s with
  | EmptyString => true
  | String c s' => isdigit c && all_digits s'
  end.

Fixpoint int_acc (acc : Z) (s : string) : Z :=
  match s with
  | EmptyString => acc
  | String c s' => int_acc (10 * acc + (code c - 48)) s'
  end.

(** [int(s)] on a text of decimal digits. *)
Definition int (s : string) : Z := int_acc 0 s.

Definition digit_char (d : Z) : ascii := ascii_of_N (Z.to_N (48 + d)).

Fixpoint str_digits (fuel : nat) (n : Z) (acc : string) : string :=
  let acc' := String (digit_char (n mod 10)) acc in
  match fuel with
  | O => acc'
  | S fuel' => if n <? 10 then acc' else str_digits fuel' (n / 10) acc'
  end.

Definition str_nonneg (n : Z) : string :=
  str_digits (Z.to_nat (Z.log2 n)) n EmptyString.

(** [str(n)] for an [int]. *)
Definition str_int (n : Z) : string :=
  if n <? 0 then String "-" (str_nonneg (- n)) else str_nonneg n.

(** [str(b)] for a [bool]. *)
Definition str_bool (b : bool) : string := if b then "True" else "False".

(** [c * n] for a one-character text [c] and an [int] [n]: empty when
    [n <= 0]. *)
Definition repeat_char (c : ascii) (n : Z) : string :=
  Nat.iter (Z.to_nat n) (String c) EmptyString.

(** [range(a, b)] *)
Definition range (a b : Z) : list Z :=
  map (fun i => a + Z.of_nat i) (seq 0 (Z.to_nat (b - a))).

(** [sep.join(l)] *)
Definition join (sep : string) (l : list string) : string := String.concat sep l.

(** [s.split(",")]: never empty, one more field than there are commas. *)
Fixpoint split_comma (s : string) : list string :=
  match s with
  | EmptyString => [EmptyString]
  | String c s' =>
      if Ascii.eqb c "," then EmptyString :: split_comma s'
      else match split_comma s' with
           | f :: fs => String c f :: fs
           | [] => [String c EmptyString]
           end
  end.

(** ["," in s] *)
Fixpoint has_comma (s : string) : bool :=
  match s with
  | EmptyString => false
  | String c s' => Ascii.eqb c "," || has_comma s'
  end.

End Py.

(** ** Regular expressions used by the parsers

    [re.fullmatch] belongs to the Python library; its patterns are given
    a denotation here, and the matchers below are shown to decide it. *)

Inductive regex :=
  | Digit
  | OneOf (cs : list ascii)
  | Seq (r1 r2 : regex)
  | Plus (r : regex)
  | Opt (r : regex).

Inductive matches : regex -> string -> Prop :=
  | m_digit c : Py.isdigit c = true -> matches Digit (String c EmptyString)
  | m_oneof cs c : In c cs -> matches (OneOf cs) (String c EmptyString)
  | m_seq r1 r2 s1 s2 :
      matches r1 s1 -> matches r2 s2 -> matches (Seq r1 r2) (s1 +:+ s2)
  | m_plus_one r s : matches r s -> matches (Plus r) s
  | m_plus_more r s1 s2 :
      matches r s1 -> matches (Plus r) s2 -> matches (Plus r) (s1 +:+ s2)
  | m_opt_none r : matches (Opt r) EmptyString
  | m_opt_some r s : matches r s -> matches (Opt r) s.

(** The pattern [\d+] *)
Definition digits_re : regex := Plus Digit.
(** The pattern [[sm]?] *)
Definition unit_re : regex := Opt (OneOf ["s"%char; "m"%char]).
(** The pattern [(\d+)([sm]?)] *)
Definition duration_re : regex := Seq digits_re unit_re.

(** The longest prefix of digits and what follows it. *)
Fixpoint span_digits (s : string) : string * string :=
  match s with
  | EmptyString => (EmptyString, EmptyString)
  | String c s' =>
      if Py.isdigit c
      then let '(d, rest) := span_digits s' in (String c d, rest)
      else (EmptyString, s)
  end.

(** [re.fullmatch(r"(\d+)([sm]?)", text)]: the two groups on a match. *)
Definition fullmatch_duration (text : string) : option (string * string) :=
  let '(d, rest) := span_digits text in
  if String.eqb d "" then None
  else if String.eqb rest "" || String.eqb rest "s" || String.eqb rest "m"
       then Some (d, rest)
       else None.

(** [re.fullmatch(r"\d+", text)] as a truth value. *)
Definition fullmatch_digits (text : string) : bool :=
  negb (String.eqb text "") && Py.all_digits text.

(** ** Constants *)

Definition DEFAULT_BAR_WIDTH : Z := 30.
Definition MIN_BAR_WIDTH : Z := 10.
Definition APP_NAME : string := "Pomdot".
Definition APP_VERSION : string := "1.0".
Definition BUILTIN_DEFAULT_TIME : list string := ["30"; "5"; "0"].
Definition BUILTIN_DEFAULT_COMPACT : bool := false.
Definition BUILTIN_DEFAULT_NO_BELL : bool := false.
Definition CONFIG_FILENAME : string := "config.toml".

(** ** Duration and value parsers *)

Definition invalid_time_format : string :=
  "invalid time format. Use N, Ns, or Nm (examples: 25, 25m, 1500s).".
Definition time_not_positive : string := "time must be greater than zero.".

Definition parse_duration (value : string) : result Z :=
  let text := Py.lower (Py.strip value) in
  match fullmatch_duration text with
  | None => Raise (ArgumentTypeError invalid_time_format)
  | Some (group1, group2) =>
      let amount := Py.int group1 in
      let unit := if String.eqb group2 "" then "m" else group2 in
      if amount <=? 0 then Raise (ArgumentTypeError time_not_positive)
      else if String.eqb unit "m" then Ok (amount * 60)
      else Ok amount
  end.

Definition repeat_not_integer : string :=
  "repeat count must be a non-negative integer.".
Definition repeat_negative : string := "repeat count must be zero or greater.".

Definition parse_repeat (value : string) : result Z :=
  let text := Py.strip value in
  if negb (fullmatch_digits text)
  then Raise (ArgumentTypeError repeat_not_integer)
  else
    let repeats := Py.int text in
    if repeats <? 0 then Raise (ArgumentTypeError repeat_negative)
    else Ok repeats.

Definition bar_width_not_integer : string := "bar width must be an integer.".
Definition bar_width_too_small : string :=
  "bar width must be at least " +:+ Py.str_int MIN_BAR_WIDTH +:+ ".".

Definition parse_bar_width (value : string) : result Z :=
  let text := Py.strip value in
  if negb (fullmatch_digits text)
  then Raise (ArgumentTypeError bar_width_not_integer)
  else
    let width := Py.int text in
    if width <? MIN_BAR_WIDTH
    then Raise (ArgumentTypeError bar_width_too_small)
    else Ok width.

(** ** Python [float]: IEEE-754 binary64 *)

Module PyFloat.

Definition prec : Z := 53.
Definition emax : Z := 1024.

(** [a / b] on two [int]s: the correctly rounded quotient. *)
Definition int_truediv (a b : Z) : result spec_float :=
  match a, b with
  | _, Z0 => Raise (ZeroDivisionError "division by zero")
  | Z0, _ => Ok (S754_zero (b <? 0))
  | _, _ =>
      match SFdiv prec emax
              (S754_finite (a <? 0) (Z.to_pos (Z.abs a)) 0)
              (S754_finite (b <? 0) (Z.to_pos (Z.abs b)) 0) with
      | S754_infinity _ =>
          Raise (OverflowError "integer division result too large for a float")
      | q => Ok q
      end
  end.

(** [float(n)]: the nearest double, ties to even. *)
Definition of_int (n : Z) : result spec_float :=
  match binary_normalize prec emax n 0 false with
  | S754_infinity _ => Raise (OverflowError "int too large to convert to float")
  | f => Ok f
  end.

(** [x * y] on two [float]s. *)
Definition mul (x y : spec_float) : spec_float := SFmul prec emax x y.

(** [int(x)]: truncation toward zero. *)
Definition to_int (x : spec_float) : result Z :=
  match x with
  | S754_zero _ => Ok 0
  | S754_infinity _ =>
      Raise (OverflowError "cannot convert float infinity to integer")
  | S754_nan => Raise (ValueError "cannot convert float NaN to integer")
  | S754_finite s m e =>
      let magnitude :=
        if 0 <=? e then Z.pos m * 2 ^ e else Z.pos m / 2 ^ (- e) in
      Ok (if s then - magnitude else magnitude)
  end.

End PyFloat.

(** A Python number: [ratio] in [build_bar] is an [int] or a [float]. *)
Inductive number :=
  | NInt (n : Z)
  | NFloat (x : spec_float).

(** [x * n] for a number [x] and an [int] [n]. *)
Definition number_mul_int (x : number) (n : Z) : result number :=
  match x with
  | NInt m => Ok (NInt (m * n))
  | NFloat f => let* g := PyFloat.of_int n in Ok (NFloat (PyFloat.mul f g))
  end.

(** [int(x)] *)
Definition number_to_int (x : number) : result Z :=
  match x with
  | NInt m => Ok m
  | NFloat f => PyFloat.to_int f
  end.

(** ** Countdown rendering *)

(** [int(ratio * width)] with [ratio = remaining / total if total else 0]. *)
Definition filled_count (remaining total width : Z) : result Z :=
  let* ratio :=
    if total =? 0 then Ok (NInt 0)
    else let* q := PyFloat.int_truediv remaining total in Ok (NFloat q) in
  let* product := number_mul_int ratio width in
  number_to_int product.

Definition render_bar (filled width : Z) : string :=
  "[" +:+ Py.repeat_char "#" filled +:+ Py.repeat_char "-" (width - filled) +:+ "]".

Definition build_bar (remaining total width : Z) : result string :=
  let* filled := filled_count remaining total width in
  Ok (render_bar filled width).

(** [f"{n:02d}"]: at least two characters, the sign included. *)
Definition fmt_02d (n : Z) : string :=
  if (0 <=? n) && (n <? 10) then "0" +:+ Py.str_int n else Py.str_int n.

Definition format_hhmmss (seconds : Z) : string :=
  let '(hours, rem) := (seconds / 3600, seconds mod 3600) in
  let '(minutes, secs) := (rem / 60, rem mod 60) in
  fmt_02d hours +:+ ":" +:+ fmt_02d minutes +:+ ":" +:+ fmt_02d secs.

(** ** Stage sequence ([main], the loop that fills [stages]) *)

Definition stage : Type := string * Z.

Definition stage_label (kind : string) (cycle total_cycles : Z) : string :=
  kind +:+ " " +:+ Py.str_int cycle +:+ "/" +:+ Py.str_int total_cycles.

Definition build_stages (focus_seconds rest_seconds repeats : Z) : list stage :=
  let total_cycles := repeats + 1 in
  fold_left
    (fun stages cycle =>
       (stages ++ [(stage_label "Focus" cycle total_cycles, focus_seconds)])
         ++ [(stage_label "Rest" cycle total_cycles, rest_seconds)])
    (Py.range 1 (total_cycles + 1)) [].

(** ** Config store *)

(** The values [tomllib] produces.  [bool] is kept apart from [int]; the
    [isinstance] tests below account for [bool] being a subclass of
    [int]. *)
Inductive pyval :=
  | PStr (s : string)
  | PInt (n : Z)
  | PBool (b : bool)
  | PFloat (repr : string)
  | PDate (repr : string)
  | PList (xs : list pyval)
  | PDict (m : gmap string pyval).

(** The validated config: the keys present in the file, each checked. *)
Record Config := {
  cfg_time : option (list string);
  cfg_compact : option bool;
  cfg_no_bell : option bool;
  cfg_bar_width : option Z;
}.

Definition empty_config : Config :=
  {| cfg_time := None; cfg_compact := None;
     cfg_no_bell := None; cfg_bar_width := None |}.

(** The four keys, each with the type of its validated value. *)
Inductive Key : Type -> Type :=
  | K_time : Key (list string)
  | K_compact : Key bool
  | K_no_bell : Key bool
  | K_bar_width : Key Z.

Definition key_name {A} (key : Key A) : string :=
  match key with
  | K_time => "time"
  | K_compact => "compact"
  | K_no_bell => "no_bell"
  | K_bar_width => "bar_width"
  end.

(** [config[key]] when [key in config]. *)
Definition config_get {A} (config : Config) (key : Key A) : option A :=
  match key in Key T return option T with
  | K_time => cfg_time config
  | K_compact => cfg_compact config
  | K_no_bell => cfg_no_bell config
  | K_bar_width => cfg_bar_width config
  end.

(** The world outside the program: the home directory, [Path.expanduser],
    the TOML parser and, separately, the files (path to text). *)
Record Env := {
  home : string;
  expanduser : string -> string;
  toml_load : string -> result pyval;
}.

Definition dq : string := String (ascii_of_N 34) EmptyString.
Definition nl : string := String (ascii_of_N 10) EmptyString.
Definition lines (l : list string) : string :=
  String.concat "" (map (fun line => line +:+ nl) l).

Definition toml_bool (b : bool) : string := if b then "true" else "false".

Definition time_triple_text (t0 t1 t2 : string) : string :=
  "[" +:+ dq +:+ t0 +:+ dq +:+ ", " +:+ dq +:+ t1 +:+ dq +:+ ", "
      +:+ dq +:+ t2 +:+ dq +:+ "]".

Definition render_config_text
    (time_values : list string) (compact no_bell : bool) (bar_width : Z)
    : result string :=
  let compact_text := toml_bool compact in
  let no_bell_text := toml_bool no_bell in
  match time_values with
  | t0 :: t1 :: t2 :: _ =>
      Ok (lines [
        "# " +:+ APP_NAME +:+ " config file";
        "# Default location: ~/.config/pomdot/" +:+ CONFIG_FILENAME;
        "# Command-line flags override these values.";
        "";
        "# time = [FOCUS, REST, REPEAT]";
        "# FOCUS and REST formats:";
        "# - N  -> minutes";
        "# - Nm -> minutes";
        "# - Ns -> seconds";
        "# - minimum value: 1";
        "# - maximum value: none";
        "# REPEAT format:";
        "# - non-negative integer";
        "# - minimum value: 0";
        "# - maximum value: none";
        "time = " +:+ time_triple_text t0 t1 t2;
        "";
        "# Compact output mode";
        "# - expected values: true or false";
        "compact = " +:+ compact_text;
        "";
        "# Disable completion bell";
        "# - expected values: true or false";
        "no_bell = " +:+ no_bell_text;
        "";
        "# Countdown bar width";
        "# - expected value: integer";
        "# - minimum value: " +:+ Py.str_int MIN_BAR_WIDTH;
        "# - maximum value: none";
        "bar_width = " +:+ Py.str_int bar_width ])
  | _ => Raise (IndexError "list index out of range")
  end.

Definition default_config_path (env : Env) : string :=
  home env +:+ "/.config/pomdot/" +:+ CONFIG_FILENAME.

Definition write_config (fs : gmap string string) (path : string) (force : bool)
    : result (gmap string string) :=
  if bool_decide (is_Some (fs !! path)) && negb force
  then Raise (FileExistsError ("config file already exists: " +:+ path))
  else
    let* text := render_config_text BUILTIN_DEFAULT_TIME BUILTIN_DEFAULT_COMPACT
                   BUILTIN_DEFAULT_NO_BELL DEFAULT_BAR_WIDTH in
    Ok (<[path := text]> fs).

Definition save_config (fs : gmap string string) (path : string)
    (time_values : list string) (compact no_bell : bool) (bar_width : Z)
    : result (gmap string string) :=
  let* text := render_config_text time_values compact no_bell bar_width in
  Ok (<[path := text]> fs).

Definition allowed_keys : list string := ["time"; "compact"; "no_bell"; "bar_width"].

Definition string_le (a b : string) : Prop := String.leb a b = true.

#[local] Instance string_le_dec a b : Decision (string_le a b).
Proof. unfold string_le. apply _. Defined.

(** [sorted(keys)] *)
Definition sorted (keys : list string) : list string := merge_sort string_le keys.

(** [[key for key in data.keys() if key not in allowed_keys]] *)
Definition unknown_keys (data : gmap string pyval) : list string :=
  filter (fun key => key ∉ allowed_keys) (map fst (map_to_list data)).

Definition unknown_keys_message (path : string) (keys : list string) : string :=
  "unknown config key(s) in " +:+ path +:+ ": " +:+ Py.join ", " (sorted keys).

(** The loop over the items of [time]: [str(item)] for a string or an
    integer (a [bool] is an [int] for [isinstance]). *)
Fixpoint normalize_items (path : string) (items : list pyval) : result (list string) :=
  match items with
  | [] => Ok []
  | item :: rest =>
      let* text :=
        match item with
        | PStr s => Ok s
        | PInt n => Ok (Py.str_int n)
        | PBool b => Ok (Py.str_bool b)
        | _ => Raise (ValueError ("invalid 'time' in " +:+ path
                        +:+ ": each value must be a string or integer."))
        end in
      let* normalized := normalize_items path rest in
      Ok (text :: normalized)
  end.

Definition load_time (path : string) (data : gmap string pyval)
    : result (option (list string)) :=
  match data !! "time" with
  | None => Ok None
  | Some time_value =>
      match time_value with
      | PList items =>
          if negb (length items =? 3)%nat
          then Raise (ValueError ("invalid 'time' in " +:+ path
                 +:+ ": expected an array with 3 values (focus, rest, repeat)."))
          else let* normalized := normalize_items path items in
               Ok (Some normalized)
      | _ => Raise (ValueError ("invalid 'time' in " +:+ path
               +:+ ": expected an array with 3 values (focus, rest, repeat)."))
      end
  end.

Definition load_bool (path key : string) (data : gmap string pyval)
    : result (option bool) :=
  match data !! key with
  | None => Ok None
  | Some (PBool b) => Ok (Some b)
  | Some _ => Raise (ValueError ("invalid '" +:+ key +:+ "' in " +:+ path
                +:+ ": expected true or false."))
  end.

Definition load_bar_width (path : string) (data : gmap string pyval)
    : result (option Z) :=
  match data !! "bar_width" with
  | None => Ok None
  | Some (PInt n) => let* w := parse_bar_width (Py.str_int n) in Ok (Some w)
  | Some (PBool b) => let* w := parse_bar_width (Py.str_bool b) in Ok (Some w)
  | Some _ => Raise (ValueError ("invalid 'bar_width' in " +:+ path
                +:+ ": expected an integer."))
  end.

Definition load_config (env : Env) (fs : gmap string string) (path : string)
    : result Config :=
  match fs !! path with
  | None => Ok empty_config
  | Some text =>
      let* data :=
        match toml_load env text with
        | Raise (TOMLDecodeError error) =>
            Raise (ValueError ("invalid TOML in config file " +:+ path
                     +:+ ": " +:+ error))
        | r => r
        end in
      match data with
      | PDict data =>
          let unknown := unknown_keys data in
          match unknown with
          | _ :: _ => Raise (ValueError (unknown_keys_message path unknown))
          | [] =>
              let* time := load_time path data in
              let* compact := load_bool path "compact" data in
              let* no_bell := load_bool path "no_bell" data in
              let* bar_width := load_bar_width path data in
              Ok {| cfg_time := time; cfg_compact := compact;
                    cfg_no_bell := no_bell; cfg_bar_width := bar_width |}
          end
      | _ => Raise (ValueError ("invalid config format in " +:+ path
               +:+ ": expected a table."))
      end
  end.

(** ** Settings resolver *)

Definition time_usage : string :=
  "-t/--time must be either three values (FOCUS REST REPEAT) or one comma-separated value (FOCUS,REST,REPEAT)".

Definition normalize_time_values (raw_time : option (list string))
    : result (option (list string)) :=
  match raw_time with
  | None => Ok None
  | Some raw =>
      let values :=
        match raw with
        | [one] =>
            if Py.has_comma one then map Py.strip (Py.split_comma one)
            else map Py.strip raw
        | _ => map Py.strip raw
        end in
      if negb (length values =? 3)%nat || existsb (String.eqb "") values
      then Raise (ParserError time_usage)
      else Ok (Some values)
  end.

(** [value is not None] *)
Definition supplied {A} (value : option A) : bool :=
  match value with
  | Some _ => true
  | None => false
  end.

Definition resolve_with_source {A} (cli_value : option A) (config : Config)
    (key : Key A) (default_value : A) : A * string :=
  match cli_value with
  | Some v => (v, "cli")
  | None =>
      match config_get config key with
      | Some v => (v, "config")
      | None => (default_value, "default")
      end
  end.

Record Sources := {
  src_time : string;
  src_compact : string;
  src_no_bell : string;
  src_bar_width : string;
}.

Record Resolved := {
  r_time_values : list string;
  r_compact : bool;
  r_no_bell : bool;
  r_bar_width : Z;
  r_sources : Sources;
}.

(** [main], from [if args.save_config:] to the end of its [else]. *)
Definition resolve_settings (save_config_mode : bool)
    (cli_time_values : option (list string)) (cli_compact cli_no_bell : option bool)
    (cli_bar_width : option Z) (config : Config) : Resolved :=
  if save_config_mode then
    {| r_time_values := default BUILTIN_DEFAULT_TIME cli_time_values;
       r_compact := default BUILTIN_DEFAULT_COMPACT cli_compact;
       r_no_bell := default BUILTIN_DEFAULT_NO_BELL cli_no_bell;
       r_bar_width := default DEFAULT_BAR_WIDTH cli_bar_width;
       r_sources :=
         {| src_time := if supplied cli_time_values then "cli" else "default";
            src_compact := if supplied cli_compact then "cli" else "default";
            src_no_bell := if supplied cli_no_bell then "cli" else "default";
            src_bar_width := if supplied cli_bar_width then "cli" else "default" |} |}
  else
    let '(time_values, time_source) :=
      resolve_with_source cli_time_values config K_time BUILTIN_DEFAULT_TIME in
    let '(compact, compact_source) :=
      resolve_with_source cli_compact config K_compact BUILTIN_DEFAULT_COMPACT in
    let '(no_bell, no_bell_source) :=
      resolve_with_source cli_no_bell config K_no_bell BUILTIN_DEFAULT_NO_BELL in
    let '(bar_width, bar_width_source) :=
      resolve_with_source cli_bar_width config K_bar_width DEFAULT_BAR_WIDTH in
    {| r_time_values := time_values; r_compact := compact;
       r_no_bell := no_bell; r_bar_width := bar_width;
       r_sources :=
         {| src_time := time_source; src_compact := compact_source;
            src_no_bell := no_bell_source; src_bar_width := bar_width_source |} |}.

(** ** The entry point *)

(** The namespace [parser.parse_args()] fills; [arg_bar_width] is the
    text given to [--bar-width], converted by [parse_bar_width] (its
    [type=]) while the arguments are parsed. *)
Record Args := {
  arg_time : option (list string);
  arg_compact : option bool;
  arg_no_bell : option bool;
  arg_bar_width : option string;
  arg_config : option string;
  arg_write_config : bool;
  arg_status : bool;
  arg_save_config : bool;
  arg_force : bool;
}.

(** How [main] ends: it returns after printing [stdout], or it enters the
    countdown loop over the stage list it has built. *)
Inductive finished :=
  | Exit (stdout : list string) (status : Z)
  | Countdown (stages : list stage) (compact : bool) (bar_width : Z) (no_bell : bool).

Definition convert_bar_width (raw : option string) : result (option Z) :=
  match raw with
  | None => Ok None
  | Some text =>
      match parse_bar_width text with
      | Ok width => Ok (Some width)
      | Raise (ArgumentTypeError msg) =>
          Raise (ParserError ("argument --bar-width: " +:+ msg))
      | Raise e => Raise e
      end
  end.

Definition config_path_of (env : Env) (args : Args) : string :=
  match arg_config args with
  | Some p => if String.eqb p "" then default_config_path env else expanduser env p
  | None => default_config_path env
  end.

(** [list[i]] *)
Definition getitem (l : list string) (i : nat) : result string :=
  match l !! i with
  | Some x => Ok x
  | None => Raise (IndexError "list index out of range")
  end.

Definition status_lines (config_path : string) (t0 t1 t2 : string)
    (compact no_bell : bool) (bar_width : Z) (sources : Sources) : list string :=
  [ APP_NAME +:+ " v" +:+ APP_VERSION;
    "config_path = " +:+ config_path;
    "time = " +:+ time_triple_text t0 t1 t2 +:+ " (source: " +:+ src_time sources +:+ ")";
    "compact = " +:+ toml_bool compact +:+ " (source: " +:+ src_compact sources +:+ ")";
    "no_bell = " +:+ toml_bool no_bell +:+ " (source: " +:+ src_no_bell sources +:+ ")";
    "bar_width = " +:+ Py.str_int bar_width +:+ " (source: " +:+ src_bar_width sources +:+ ")" ].

Definition saved_lines (config_path : string) (t0 t1 t2 : string)
    (compact no_bell : bool) (bar_width : Z) : list string :=
  [ "Saved config: " +:+ config_path;
    "time = " +:+ time_triple_text t0 t1 t2;
    "compact = " +:+ toml_bool compact;
    "no_bell = " +:+ toml_bool no_bell;
    "bar_width = " +:+ Py.str_int bar_width ].

(** The [try] block that validates the resolved values; an
    [ArgumentTypeError] becomes [parser.error]. *)
Definition validate (r : Resolved) : result (Z * Z * Z * Z) :=
  let checked :=
    let* t0 := getitem (r_time_values r) 0 in
    let* focus_seconds := parse_duration t0 in
    let* t1 := getitem (r_time_values r) 1 in
    let* rest_seconds := parse_duration t1 in
    let* t2 := getitem (r_time_values r) 2 in
    let* repeats := parse_repeat t2 in
    let* bar_width := parse_bar_width (Py.str_int (r_bar_width r)) in
    Ok (focus_seconds, rest_seconds, repeats, bar_width) in
  match checked with
  | Raise (ArgumentTypeError msg) => Raise (ParserError msg)
  | other => other
  end.

(** [[str(time_values[0]).strip(), str(time_values[1]).strip(),
    str(time_values[2]).strip()]] *)
Definition normalized_triple (time_values : list string)
    : result (string * string * string) :=
  let* t0 := getitem time_values 0 in
  let* t1 := getitem time_values 1 in
  let* t2 := getitem time_values 2 in
  Ok (Py.strip t0, Py.strip t1, Py.strip t2).

Definition main (env : Env) (args : Args) (fs : gmap string string)
    : result finished * gmap string string :=
  match convert_bar_width (arg_bar_width args) with
  | Raise e => (Raise e, fs)
  | Ok cli_bar_width =>
  let config_path := config_path_of env args in
  match normalize_time_values (arg_time args) with
  | Raise e => (Raise e, fs)
  | Ok cli_time_values =>
  if arg_force args && negb (arg_write_config args) then
    (Raise (ParserError "--force can only be used with --write-config"), fs)
  else if arg_write_config args && arg_save_config args then
    (Raise (ParserError "--write-config and --save-config cannot be used together"), fs)
  else if arg_status args && arg_write_config args then
    (Raise (ParserError "--status and --write-config cannot be used together"), fs)
  else if arg_status args && arg_save_config args then
    (Raise (ParserError "--status and --save-config cannot be used together"), fs)
  else if arg_write_config args then
    if supplied cli_time_values || supplied (arg_compact args)
       || supplied (arg_no_bell args) || supplied cli_bar_width
    then (Raise (ParserError "--write-config cannot be combined with timer options"), fs)
    else
      match write_config fs config_path (arg_force args) with
      | Raise (FileExistsError msg) => (Raise (ParserError msg), fs)
      | Raise e => (Raise e, fs)
      | Ok fs' => (Ok (Exit ["Wrote config: " +:+ config_path] 0), fs')
      end
  else
  match load_config env fs config_path with
  | Raise (ValueError msg) => (Raise (ParserError msg), fs)
  | Raise e => (Raise e, fs)
  | Ok config =>
  let r := resolve_settings (arg_save_config args) cli_time_values
             (arg_compact args) (arg_no_bell args) cli_bar_width config in
  match validate r with
  | Raise e => (Raise e, fs)
  | Ok (focus_seconds, rest_seconds, repeats, bar_width) =>
  match normalized_triple (r_time_values r) with
  | Raise e => (Raise e, fs)
  | Ok (n0, n1, n2) =>
  if arg_status args then
    (Ok (Exit (status_lines config_path n0 n1 n2 (r_compact r) (r_no_bell r)
                 bar_width (r_sources r)) 0), fs)
  else if arg_save_config args then
    match save_config fs config_path [n0; n1; n2]
            (r_compact r) (r_no_bell r) bar_width with
    | Raise e => (Raise e, fs)
    | Ok fs' =>
        (Ok (Exit (saved_lines config_path n0 n1 n2 (r_compact r) (r_no_bell r)
                     bar_width) 0), fs')
    end
  else
    (Ok (Countdown (build_stages focus_seconds rest_seconds repeats)
           (r_compact r) bar_width (r_no_bell r)), fs)
  end end end end end.

(** ** The fill count as the specification words it

    [floor((remaining / total) * width)] with exact division, and 0 for
    a zero [total]; kept apart from [filled_count], which is the code. *)
Definition spec_filled (remaining total width : Z) : Z :=
  if total =? 0 then 0
  else Qfloor ((inject_Z remaining / inject_Z total) * inject_Z width)%Q.

(** The code's fill count against [spec_filled]: equal, or one less
    where the exact value is an integer. *)
Definition bar_agrees (remaining total width : Z) : bool :=
  match filled_count remaining total width with
  | Ok filled =>
      let q := spec_filled remaining total width in
      if (remaining * width) mod total =? 0
      then (filled =? q) || (filled =? q - 1)
      else filled =? q
  | Raise _ => false
  end.

Definition bar_agrees_upto (bound : Z) : bool :=
  forallb (fun total =>
    forallb (fun remaining =>
      forallb (fun width => bar_agrees remaining total width)
        (Py.range 0 (bound + 1)))
      (Py.range 0 (total + 1)))
    (Py.range 1 (bound + 1)).

(** How a run of [main] ends for the caller: the exit status, when
    [main] decides it (the countdown decides its own). *)
Definition exit_status (r : result finished) : option Z :=
  match r with
  | Raise (ParserError _) => Some 2
  | Raise _ => Some 1
  | Ok (Exit _ status) => Some status
  | Ok (Countdown _ _ _ _) => None
  end.



(** ** Config files that must be refused

    The faults of a config text, as the specification lists them: text
    that is not TOML, a key outside the four, and a value of the wrong
    type or shape. *)

Definition is_text_or_int (v : pyval) : bool :=
  match v with
  | PStr _ | PInt _ | PBool _ => true
  | _ => false
  end.

Definition well_shaped_time (v : pyval) : bool :=
  match v with
  | PList items => (length items =? 3)%nat && forallb is_text_or_int items
  | _ => false
  end.

Definition is_bool (v : pyval) : bool :=
  match v with
  | PBool _ => true
  | _ => false
  end.

Definition is_int (v : pyval) : bool :=
  match v with
  | PInt _ | PBool _ => true
  | _ => false
  end.

Inductive malformed (env : Env) (text : string) : Prop :=
  | bad_syntax msg :
      toml_load env text = Raise (TOMLDecodeError msg) -> malformed env text
  | bad_key data key v :
      toml_load env text = Ok (PDict data) ->
      data !! key = Some v -> key ∉ allowed_keys -> malformed env text
  | bad_time data v :
      toml_load env text = Ok (PDict data) ->
      data !! "time" = Some v -> well_shaped_time v = false -> malformed env text
  | bad_compact data v :
      toml_load env text = Ok (PDict data) ->
      data !! "compact" = Some v -> is_bool v = false -> malformed env text
  | bad_no_bell data v :
      toml_load env text = Ok (PDict data) ->
      data !! "no_bell" = Some v -> is_bool v = false -> malformed env text
  | bad_bar_width data v :
      toml_load env text = Ok (PDict data) ->
      data !! "bar_width" = Some v -> is_int v = false -> malformed env text.

(** ** Sample runs

    A home directory, a handful of config texts with the tables
    [tomllib] gives for them, and the empty command line. *)

Definition sample_toml (text : string) : result pyval :=
  if String.eqb text "bar_width = 5" then Ok (PDict {[ "bar_width" := PInt 5 ]})
  else if String.eqb text "bar_width = 15" then Ok (PDict {[ "bar_width" := PInt 15 ]})
  else if String.eqb text "foo = 1" then Ok (PDict {[ "foo" := PInt 1 ]})
  else if String.eqb text "time = [1, 1, 1]"
       then Ok (PDict {[ "time" := PList [PInt 1; PInt 1; PInt 1] ]})
  else Raise (TOMLDecodeError "Invalid statement (at line 1, column 1)").

Definition sample_env : Env :=
  {| home := "/home/user"; expanduser := fun p => p; toml_load := sample_toml |}.

Definition sample_path : string := "/home/user/.config/pomdot/config.toml".

Definition no_args : Args :=
  {| arg_time := None; arg_compact := None; arg_no_bell := None;
     arg_bar_width := None; arg_config := None; arg_write_config := false;
     arg_status := false; arg_save_config := false; arg_force := false |}.



(** The command line [--save-config], alone and with timer options. *)
Definition save_config_only : Args :=
  {| arg_time := None; arg_compact := None; arg_no_bell := None;
     arg_bar_width := None; arg_config := None; arg_write_config := false;
     arg_status := false; arg_save_config := true; arg_force := false |}.

Definition save_config_with_options : Args :=
  {| arg_time := Some ["25, 5 ,3"]; arg_compact := Some true; arg_no_bell := None;
     arg_bar_width := Some "40"; arg_config := None; arg_write_config := false;
     arg_status := false; arg_save_config := true; arg_force := false |}.

(** ** Countdown runner

    The clocks are outside the program.  The wall clock is the function
    [wall]: for a duration it gives the texts of [start] and of [end]
    under [strftime('%H:%M:%S')], or the exception of the date
    arithmetic.  The monotonic clock is a list of ticks, one for each
    pass of the loop: the value of [int(time.monotonic() - start_monotonic)]
    read there, or the [KeyboardInterrupt] that arrives instead (during
    the sleep before it).  What is printed is the list of the texts
    written, one for each [print]. *)

Inductive tick :=
  | Reading (elapsed : Z)
  | Interrupt.

(** How a stage, or the whole sequence, stops: it completes, it is
    interrupted, an exception leaves it, or the ticks given ran out while
    it was still counting. *)
Inductive stop :=
  | Completed
  | Interrupted
  | Failed (e : exn)
  | Running.

Definition BEL : string := String (ascii_of_N 7) EmptyString.
Definition ESC : string := String (ascii_of_N 27) EmptyString.
Definition CR : string := String (ascii_of_N 13) EmptyString.
Definition HIDE_CURSOR : string := ESC +:+ "[?25l".
Definition SHOW_CURSOR : string := ESC +:+ "[?25h".

(** [max(0, total_seconds - elapsed)] *)
Definition remaining_at (total_seconds elapsed : Z) : Z :=
  Z.max 0 (total_seconds - elapsed).

Definition countdown_line (stage_name : string) (remaining : Z) (bar : string) : string :=
  CR +:+ ESC +:+ "[2K" +:+ "Stage: " +:+ stage_name +:+ " | Remaining: "
     +:+ format_hhmmss remaining +:+ " " +:+ bar.

(** The [while True] loop of [run_stage]. *)
Fixpoint countdown_loop (stage_name : string) (total_seconds bar_width : Z)
    (ring_transition_bell is_last_stage : bool) (ticks : list tick)
    : list string * stop * list tick :=
  match ticks with
  | [] => ([], Running, [])
  | Interrupt :: rest => ([], Interrupted, rest)
  | Reading elapsed :: rest =>
      let remaining := remaining_at total_seconds elapsed in
      match build_bar remaining total_seconds bar_width with
      | Raise e => ([], Failed e, rest)
      | Ok bar =>
          let shown := countdown_line stage_name remaining bar in
          if remaining =? 0 then
            (shown :: (if ring_transition_bell && negb is_last_stage
                       then [BEL] else []),
             Completed, rest)
          else
            let '(out, how, rest') :=
              countdown_loop stage_name total_seconds bar_width
                ring_transition_bell is_last_stage rest in
            (shown :: out, how, rest')
      end
  end.

Definition stage_header (stage_name start_text end_text : string) (compact : bool)
    : list string :=
  if compact then [nl]
  else [ nl +:+ "Stage:     " +:+ stage_name +:+ nl;
         "Start:     " +:+ start_text +:+ nl;
         "End:       " +:+ end_text +:+ nl ].

Definition run_stage (wall : Z -> result (string * string))
    (stage_name : string) (total_seconds : Z) (compact : bool) (bar_width : Z)
    (ring_transition_bell is_last_stage : bool) (ticks : list tick)
    : list string * stop * list tick :=
  match wall total_seconds with
  | Raise e => ([], Failed e, ticks)
  | Ok (start_text, end_text) =>
      let header := stage_header stage_name start_text end_text compact in
      let '(out, how, rest) :=
        countdown_loop stage_name total_seconds bar_width
          ring_transition_bell is_last_stage ticks in
      match how with
      | Completed => (header ++ out ++ [nl], Completed, rest)
      | _ => (header ++ out, how, rest)
      end
  end.

(** The [for] loop of [main] over [enumerate(stages)], from [index] on;
    [count] is [len(stages)]. *)
Fixpoint run_stages (wall : Z -> result (string * string)) (stages : list stage)
    (index count : Z) (compact : bool) (bar_width : Z) (no_bell : bool)
    (ticks : list tick) : list string * stop * list tick :=
  match stages with
  | [] => ([], Completed, ticks)
  | (stage_name, stage_seconds) :: later =>
      let '(out, how, rest) :=
        run_stage wall stage_name stage_seconds compact bar_width
          (negb no_bell) (index =? count - 1) ticks in
      match how with
      | Completed =>
          let '(out', how', rest') :=
            run_stages wall later (index + 1) count compact bar_width no_bell rest in
          (out ++ out', how', rest')
      | _ => (out, how, rest)
      end
  end.

Definition done_text (no_bell : bool) : string :=
  if no_bell then nl +:+ "Done!" +:+ nl else nl +:+ "Done!" +:+ BEL +:+ nl.

(** [main] from its last [try] on: what is printed, how the run stops and
    the value [main] returns when it returns. *)
Definition countdown (wall : Z -> result (string * string)) (stages : list stage)
    (compact : bool) (bar_width : Z) (no_bell : bool) (ticks : list tick)
    : list string * stop * option Z :=
  let start := [APP_NAME +:+ " v" +:+ APP_VERSION +:+ nl; HIDE_CURSOR] in
  let '(out, how, _) :=
    run_stages wall stages 0 (Z.of_nat (length stages)) compact bar_width
      no_bell ticks in
  match how with
  | Completed =>
      (start ++ out ++ [SHOW_CURSOR; done_text no_bell], Completed, Some 0)
  | Interrupted =>
      (start ++ out ++ [nl +:+ "Cancelled." +:+ nl; SHOW_CURSOR], Interrupted, Some 130)
  | Failed e => (start ++ out ++ [SHOW_CURSOR], Failed e, None)
  | Running => (start ++ out, Running, None)
  end.

(** A text made of white space only. *)
Fixpoint all_space (s : string) : bool :=
  match s with
  | EmptyString => true
  | String c s' => Py.isspace c && all_space s'
  end.

(** A text printed during a stage: a line of the countdown, a line of
    the header, the line end, or the bell. *)
Inductive stage_chunk : string -> Prop :=
  | chunk_line name remaining bar : stage_chunk (countdown_line name remaining bar)
  | chunk_newline : stage_chunk nl
  | chunk_stage name : stage_chunk (nl +:+ "Stage:     " +:+ name +:+ nl)
  | chunk_start text : stage_chunk ("Start:     " +:+ text +:+ nl)
  | chunk_end text : stage_chunk ("End:       " +:+ text +:+ nl)
  | chunk_bell : stage_chunk BEL.

(** How many times the bell alone is printed. *)
Definition bells (out : list string) : nat :=
  length (filter (fun chunk => chunk = BEL) out).

(** [build_bar] returns for every value the countdown can show. *)
Definition bar_defined (total_seconds bar_width : Z) : Prop :=
  forall remaining, 0 <= remaining <= total_seconds ->
    exists bar, build_bar remaining total_seconds bar_width = Ok bar.

(** ** Reading the display back

    The seconds a text [H:MM:SS] stands for; used to state that
    [format_hhmmss] loses nothing. *)
Definition read_hhmmss (text : string) : option Z :=
  let '(h, after_h) := span_digits text in
  match after_h with
  | String ":" rest_m =>
      let '(m, after_m) := span_digits rest_m in
      match after_m with
      | String ":" rest_s =>
          let '(s, after_s) := span_digits rest_s in
          if String.eqb after_s ""
          then Some (Py.int h * 3600 + Py.int m * 60 + Py.int s)
          else None
      | _ => None
      end
  | _ => None
  end.

(** The text [str(item)] of an item of [time] that [load_config] accepts. *)
Definition item_text (item : pyval) : option string :=
  match item with
  | PStr s => Some s
  | PInt n => Some (Py.str_int n)
  | PBool b => Some (Py.str_bool b)
  | _ => None
  end.

(** The shape of the bar over a whole stage, checked on a range of
    durations and widths: between 0 and [width] cells are filled, all of
    them at the start, none at the end, and never more than a second
    earlier. *)
Definition bar_shape_ok (remaining total width : Z) : bool :=
  match filled_count remaining total width with
  | Ok filled =>
      (0 <=? filled) && (filled <=? width)
      && ((remaining <? total) || (filled =? width))
      && ((0 <? remaining) || (filled =? 0))
      && ((remaining =? 0)
          || match filled_count (remaining - 1) total width with
             | Ok below => below <=? filled
             | Raise _ => false
             end)
  | Raise _ => false
  end.

Definition bar_shape_upto (bound : Z) : bool :=
  forallb (fun total =>
    forallb (fun remaining =>
      forallb (fun width => bar_shape_ok remaining total width)
        (Py.range 0 (bound + 1)))
      (Py.range 0 (total + 1)))
    (Py.range 1 (bound + 1)).

(** The same command line with [--force] given or left out. *)
Definition with_force (args : Args) (force : bool) : Args :=
  {| arg_time := arg_time args; arg_compact := arg_compact args;
     arg_no_bell := arg_no_bell args; arg_bar_width := arg_bar_width args;
     arg_config := arg_config args; arg_write_config := arg_write_config args;
     arg_status := arg_status args; arg_save_config := arg_save_config args;
     arg_force := force |}.

(** The text [write_config] writes. *)
Definition default_config_text : result string :=
  render_config_text BUILTIN_DEFAULT_TIME BUILTIN_DEFAULT_COMPACT
    BUILTIN_DEFAULT_NO_BELL DEFAULT_BAR_WIDTH.

(** The command lines [--write-config] and [--write-config --force]. *)
Definition write_config_only : Args :=
  {| arg_time := None; arg_compact := None; arg_no_bell := None;
     arg_bar_width := None; arg_config := None; arg_write_config := true;
     arg_status := false; arg_save_config := false; arg_force := false |}.

Definition write_config_force : Args :=
  {| arg_time := None; arg_compact := None; arg_no_bell := None;
     arg_bar_width := None; arg_config := None; arg_write_config := true;
     arg_status := false; arg_save_config := false; arg_force := true |}.

(** The command line [--status]. *)
Definition status_only : Args :=
  {| arg_time := None; arg_compact := None; arg_no_bell := None;
     arg_bar_width := None; arg_config := None; arg_write_config := false;
     arg_status := true; arg_save_config := false; arg_force := false |}.

(** The command line [--time 1s,1s,0 --no-bell]. *)
Definition one_second_quiet : Args :=
  {| arg_time := Some ["1s,1s,0"]; arg_compact := None; arg_no_bell := Some true;
     arg_bar_width := None; arg_config := None; arg_write_config := false;
     arg_status := false; arg_save_config := false; arg_force := false |}.

(** A wall clock that starts every stage at noon. *)
Definition noon (total_seconds : Z) : result (string * string) :=
  Ok (format_hhmmss 43200, format_hhmmss ((43200 + total_seconds) mod 86400)).

(** * Properties *)

(** ** Characters and texts *)

Lemma code_range c : 0 <= Py.code c < 256.
Proof.
  unfold Py.code. pose proof (N_ascii_bounded c). lia.
Qed.

Lemma code_digit_char d : 0 <= d < 10 -> Py.code (Py.digit_char d) = 48 + d.
Proof.
  intros Hd. unfold Py.code, Py.digit_char.
  rewrite N_ascii_embedding by lia. lia.
Qed.

Lemma isdigit_digit_char d : 0 <= d < 10 -> Py.isdigit (Py.digit_char d) = true.
Proof.
  intros Hd. unfold Py.isdigit. rewrite code_digit_char by done.
  apply andb_true_intro; split; lia.
Qed.

Lemma isdigit_not_space c : Py.isdigit c = true -> Py.isspace c = false.
Proof.
  unfold Py.isdigit, Py.isspace. intros [H1 H2]%andb_prop.
  repeat (apply orb_false_intro || apply andb_false_intro2 || split); lia.
Qed.

Lemma append_cons c s t : String c s +:+ t = String c (s +:+ t).
Proof. reflexivity. Qed.

Lemma append_empty_l s : "" +:+ s = s.
Proof. reflexivity. Qed.

Lemma append_empty_r s : s +:+ "" = s.
Proof. induction s as [|c s IH]; [done|by rewrite append_cons, IH]. Qed.

Lemma append_assoc s t u : (s +:+ t) +:+ u = s +:+ t +:+ u.
Proof. induction s as [|c s IH]; [done|by rewrite !append_cons, IH]. Qed.

Lemma int_acc_app a s t : Py.int_acc a (s +:+ t) = Py.int_acc (Py.int_acc a s) t.
Proof.
  revert a. induction s as [|c s IH]; intros a; [done|].
  rewrite append_cons. simpl. apply IH.
Qed.

Lemma int_acc_nonneg a s : 0 <= a -> Py.all_digits s = true -> 0 <= Py.int_acc a s.
Proof.
  revert a. induction s as [|c s IH]; intros a Ha Hs; simpl in *; [done|].
  apply andb_prop in Hs as [Hc Hs]. apply IH; [|done].
  unfold Py.isdigit in Hc. apply andb_prop in Hc as [H1 H2]. lia.
Qed.

Lemma int_nonneg s : Py.all_digits s = true -> 0 <= Py.int s.
Proof. apply int_acc_nonneg. lia. Qed.

Lemma all_digits_app s t :
  Py.all_digits (s +:+ t) = Py.all_digits s && Py.all_digits t.
Proof.
  induction s as [|c s IH]; [done|].
  rewrite append_cons. simpl. rewrite IH. apply andb_assoc.
Qed.

Lemma str_digits_acc fuel n acc :
  Py.str_digits fuel n acc = Py.str_digits fuel n "" +:+ acc.
Proof.
  revert n acc. induction fuel as [|fuel IH]; intros n acc; simpl; [done|].
  destruct (n <? 10); [done|].
  rewrite IH. rewrite (IH _ (String _ "")). by rewrite append_assoc.
Qed.

Lemma str_digits_spec fuel n :
  0 <= n < 2 ^ (Z.of_nat fuel + 1) ->
  Py.int (Py.str_digits fuel n "") = n
  /\ Py.all_digits (Py.str_digits fuel n "") = true
  /\ Py.str_digits fuel n "" <> "".
Proof.
  revert n. induction fuel as [|fuel IH]; intros n Hn.
  - simpl in *. assert (Hlt : n mod 10 = n) by (apply Z.mod_small; lia).
    rewrite Hlt. unfold Py.int. simpl.
    rewrite code_digit_char, isdigit_digit_char by lia. repeat split; [lia|done].
  - simpl. destruct (Z.ltb_spec n 10) as [Hlt|Hge].
    + rewrite Z.mod_small by lia. unfold Py.int. simpl.
      rewrite code_digit_char, isdigit_digit_char by lia. repeat split; [lia|done].
    + assert (Hq : 0 <= n / 10 < 2 ^ (Z.of_nat fuel + 1)).
      { split; [apply Z.div_pos; lia|].
        apply Z.div_lt_upper_bound; [lia|].
        replace (Z.of_nat (S fuel) + 1) with (Z.succ (Z.of_nat fuel + 1)) in Hn by lia.
        rewrite Z.pow_succ_r in Hn by lia. lia. }
      destruct (IH _ Hq) as (Hint & Hall & Hne).
      pose proof (Z.mod_pos_bound n 10 ltac:(lia)) as Hm.
      rewrite str_digits_acc. repeat split.
      * unfold Py.int in *. rewrite int_acc_app, Hint. simpl.
        rewrite code_digit_char by lia. pose proof (Z.div_mod n 10). lia.
      * rewrite all_digits_app, Hall. simpl. by rewrite isdigit_digit_char.
      * destruct (Py.str_digits fuel (n / 10) ""); [done|]. discriminate.
Qed.

Lemma str_nonneg_spec n :
  0 <= n ->
  Py.int (Py.str_nonneg n) = n
  /\ Py.all_digits (Py.str_nonneg n) = true
  /\ Py.str_nonneg n <> "".
Proof.
  intros Hn. apply str_digits_spec. split; [done|].
  destruct (Z.eq_dec n 0) as [->|Hne]; [simpl; lia|].
  rewrite Z2Nat.id by apply Z.log2_nonneg.
  pose proof (Z.log2_spec n ltac:(lia)). replace (Z.log2 n + 1) with (Z.succ (Z.log2 n)) by lia.
  lia.
Qed.

(** [int(str(n)) == n] for a non-negative [n], and [str(n)] is made of
    digits only. *)
Lemma int_str_int n :
  0 <= n ->
  Py.int (Py.str_int n) = n
  /\ Py.all_digits (Py.str_int n) = true
  /\ Py.str_int n <> "".
Proof.
  intros Hn. unfold Py.str_int.
  destruct (Z.ltb_spec n 0); [lia|]. by apply str_nonneg_spec.
Qed.

Lemma lstrip_no_space c s : Py.isspace c = false -> Py.lstrip (String c s) = String c s.
Proof. intros H. simpl. by rewrite H. Qed.

Lemma rstrip_head c s :
  Py.isspace c = false -> exists r, Py.rstrip (String c s) = String c r.
Proof.
  intros H. simpl. destruct (Py.rstrip s); rewrite ?H; eauto.
Qed.

Lemma rstrip_idem s : Py.rstrip (Py.rstrip s) = Py.rstrip s.
Proof.
  induction s as [|c s IH]; [done|]. simpl.
  destruct (Py.rstrip s) as [|c' r] eqn:E.
  - destruct (Py.isspace c) eqn:Hc; [done|]. simpl. by rewrite Hc.
  - simpl in *. by rewrite IH.
Qed.

Lemma lstrip_head s :
  Py.lstrip s = "" \/ exists c r, Py.lstrip s = String c r /\ Py.isspace c = false.
Proof.
  induction s as [|c s IH]; [by left|]. simpl.
  destruct (Py.isspace c) eqn:Hc; [done|]. right. eauto.
Qed.

(** [strip] is idempotent. *)
Lemma strip_idem s : Py.strip (Py.strip s) = Py.strip s.
Proof.
  unfold Py.strip. destruct (lstrip_head s) as [->|(c & r & -> & Hc)]; [done|].
  destruct (rstrip_head c r Hc) as [r' Hr]. rewrite Hr.
  rewrite lstrip_no_space by done. rewrite <- Hr. apply rstrip_idem.
Qed.

Lemma rstrip_digits s : Py.all_digits s = true -> Py.rstrip s = s.
Proof.
  induction s as [|c s IH]; [done|]. simpl. intros [Hc Hs]%andb_prop.
  rewrite IH by done. destruct s; [|done].
  by rewrite isdigit_not_space.
Qed.

(** A text of digits has nothing to strip. *)
Lemma strip_digits s : Py.all_digits s = true -> Py.strip s = s.
Proof.
  intros Hs. unfold Py.strip. destruct s as [|c s]; [done|].
  pose proof Hs as [Hc _]%andb_prop.
  rewrite lstrip_no_space by by apply isdigit_not_space.
  by apply rstrip_digits.
Qed.

(** ** The matchers decide their patterns *)

Lemma matches_digits_iff s :
  matches digits_re s <-> s <> "" /\ Py.all_digits s = true.
Proof.
  unfold digits_re. split.
  - intros H. remember (Plus Digit) as r eqn:Hr.
    induction H as [ c Hc | cs c Hin | r1 r2 s1 s2 H1 IH1 H2 IH2 | r s H IH0
                   | r s1 s2 H1 IH1 H2 IH | r | r s H IH0 ]; try discriminate.
    + injection Hr as ->. inversion H; subst. simpl. split; [done|].
      by rewrite andb_true_r.
    + injection Hr as ->. inversion H1; subst.
      destruct (IH eq_refl) as [_ Hall]. rewrite append_cons, append_empty_l.
      split; [done|]. simpl. by rewrite Hall, andb_true_r.
  - intros [Hne Hall]. induction s as [|c s IH]; [done|].
    simpl in Hall. apply andb_prop in Hall as [Hc Hs].
    destruct s as [|c' s'].
    + apply m_plus_one. by constructor.
    + change (String c (String c' s')) with (String c "" +:+ String c' s').
      apply m_plus_more; [by constructor|]. by apply IH.
Qed.

Lemma matches_unit_iff u :
  matches unit_re u <-> u = "" \/ u = "s" \/ u = "m".
Proof.
  unfold unit_re. split.
  - intros H. inversion H as [| | | | | |r s H']; subst; [by left|].
    inversion H' as [|cs c Hin| | | | |]; subst.
    destruct Hin as [<- | [<- | []]]; auto.
  - intros [-> | [-> | ->]]; [apply m_opt_none| |];
      apply m_opt_some, m_oneof; simpl; auto.
Qed.

Lemma span_digits_spec s :
  s = (span_digits s).1 +:+ (span_digits s).2
  /\ Py.all_digits (span_digits s).1 = true
  /\ match (span_digits s).2 with
     | String c _ => Py.isdigit c = false
     | EmptyString => True
     end.
Proof.
  induction s as [|c s (IH1 & IH2 & IH3)]; [done|]. simpl.
  destruct (Py.isdigit c) eqn:Hc; [|done].
  destruct (span_digits s) as [d rest]. simpl in *.
  rewrite append_cons, <- IH1, Hc. done.
Qed.

Lemma span_digits_app d u :
  Py.all_digits d = true ->
  match u with String c _ => Py.isdigit c = false | EmptyString => True end ->
  span_digits (d +:+ u) = (d, u).
Proof.
  intros Hd Hu. induction d as [|c d IH].
  - rewrite append_empty_l. destruct u as [|c u]; [done|]. simpl. by rewrite Hu.
  - simpl in Hd. apply andb_prop in Hd as [Hc Hd].
    rewrite append_cons. simpl. rewrite Hc, IH by done. done.
Qed.

Lemma unit_not_digit u :
  u = "" \/ u = "s" \/ u = "m" ->
  match u with String c _ => Py.isdigit c = false | EmptyString => True end.
Proof. by intros [-> | [-> | ->]]. Qed.

Lemma unit_eqb u :
  String.eqb u "" || String.eqb u "s" || String.eqb u "m" = true
  <-> u = "" \/ u = "s" \/ u = "m".
Proof.
  rewrite !orb_true_iff, !String.eqb_eq. tauto.
Qed.

(** [fullmatch_duration] returns the two groups exactly on the texts of
    the pattern [(\d+)([sm]?)]. *)
Lemma fullmatch_duration_some text d u :
  text = d +:+ u -> matches digits_re d -> matches unit_re u ->
  fullmatch_duration text = Some (d, u).
Proof.
  intros -> [Hne Hall]%matches_digits_iff Hu%matches_unit_iff.
  unfold fullmatch_duration.
  rewrite span_digits_app by (done || by apply unit_not_digit).
  destruct (String.eqb_spec d ""); [done|].
  apply unit_eqb in Hu. by rewrite Hu.
Qed.

Lemma fullmatch_duration_inv text d u :
  fullmatch_duration text = Some (d, u) ->
  text = d +:+ u /\ matches digits_re d /\ matches unit_re u.
Proof.
  unfold fullmatch_duration.
  destruct (span_digits_spec text) as (Heq & Hall & _).
  destruct (span_digits text) as [d' rest]. simpl in *.
  destruct (String.eqb_spec d' ""); [done|].
  destruct (_ || _) eqn:Hu; [|done]. intros [= <- <-].
  split; [done|]. split.
  - by apply matches_digits_iff.
  - by apply matches_unit_iff, unit_eqb.
Qed.

Lemma fullmatch_duration_none text :
  fullmatch_duration text = None <-> ~ matches duration_re text.
Proof.
  split.
  - intros Hnone H. inversion H; subst.
    erewrite fullmatch_duration_some in Hnone; done.
  - intros Hno. destruct (fullmatch_duration text) as [[d u]|] eqn:E; [|done].
    apply fullmatch_duration_inv in E as (-> & Hd & Hu).
    exfalso. apply Hno. by constructor.
Qed.

Lemma fullmatch_digits_iff text :
  fullmatch_digits text = true <-> matches digits_re text.
Proof.
  rewrite matches_digits_iff. unfold fullmatch_digits.
  rewrite andb_true_iff, negb_true_iff.
  destruct (String.eqb_spec text ""); split; intros [? ?]; done.
Qed.

(** ** Duration and value parsers *)

(** C4. On a text whose stripped, lower-cased form matches [\d+[sm]?]
    with an amount above zero, [parse_duration] returns sixty times the
    amount for the unit [m] or no unit and the amount for the unit [s];
    it raises the non-positive error when the amount is zero and the
    invalid-format error when the pattern does not match. *)
Theorem parse_duration_spec (value : string) :
  let text := Py.lower (Py.strip value) in
  (forall digits unit,
      text = digits +:+ unit -> matches digits_re digits -> matches unit_re unit ->
      0 < Py.int digits ->
      parse_duration value =
        Ok (if String.eqb unit "s" then Py.int digits else Py.int digits * 60))
  /\ (forall digits unit,
      text = digits +:+ unit -> matches digits_re digits -> matches unit_re unit ->
      Py.int digits = 0 ->
      parse_duration value = Raise (ArgumentTypeError time_not_positive))
  /\ (~ matches duration_re text ->
      parse_duration value = Raise (ArgumentTypeError invalid_time_format)).
Proof.
  intros text. unfold parse_duration. fold text. repeat split.
  - intros digits unit Heq Hd Hu Hpos.
    rewrite (fullmatch_duration_some _ _ _ Heq Hd Hu).
    destruct (Z.leb_spec (Py.int digits) 0); [lia|].
    apply matches_unit_iff in Hu as [-> | [-> | ->]]; done.
  - intros digits unit Heq Hd Hu Hzero.
    rewrite (fullmatch_duration_some _ _ _ Heq Hd Hu), Hzero. done.
  - intros Hno. apply fullmatch_duration_none in Hno. by rewrite Hno.
Qed.

Lemma parse_duration_spec_witness :
  parse_duration " 25M " = Ok 1500
  /\ parse_duration "90s" = Ok 90
  /\ parse_duration "0m" = Raise (ArgumentTypeError time_not_positive).
Proof.
  split; [|split].
  - apply (proj1 (parse_duration_spec " 25M ") "25" "m"); [reflexivity| | |reflexivity].
    + apply matches_digits_iff. by vm_compute.
    + apply matches_unit_iff. auto.
  - apply (proj1 (parse_duration_spec "90s") "90" "s"); [reflexivity| | |reflexivity].
    + apply matches_digits_iff. by vm_compute.
    + apply matches_unit_iff. auto.
  - apply (proj1 (proj2 (parse_duration_spec "0m")) "0" "m"); [reflexivity| | |reflexivity].
    + apply matches_digits_iff. by vm_compute.
    + apply matches_unit_iff. auto.
Defined.

(** C9. [parse_repeat] raises the invalid-format error exactly when the
    stripped text is not made of digits only, and otherwise returns the
    non-negative value of the digits; the branch for a negative count is
    never taken, and zero is accepted. *)
Theorem parse_repeat_total (value : string) :
  (( ~ matches digits_re (Py.strip value)
     /\ parse_repeat value = Raise (ArgumentTypeError repeat_not_integer))
   \/ ( matches digits_re (Py.strip value)
        /\ 0 <= Py.int (Py.strip value)
        /\ parse_repeat value = Ok (Py.int (Py.strip value))))
  /\ parse_repeat value <> Raise (ArgumentTypeError repeat_negative)
  /\ parse_repeat "0" = Ok 0.
Proof.
  assert (Hcases :
    ( ~ matches digits_re (Py.strip value)
      /\ parse_repeat value = Raise (ArgumentTypeError repeat_not_integer))
    \/ ( matches digits_re (Py.strip value)
         /\ 0 <= Py.int (Py.strip value)
         /\ parse_repeat value = Ok (Py.int (Py.strip value)))).
  { unfold parse_repeat.
    destruct (fullmatch_digits (Py.strip value)) eqn:Hm; simpl.
    - right. pose proof Hm as Hre%fullmatch_digits_iff.
      pose proof Hre as [_ Hall%int_nonneg]%matches_digits_iff.
      destruct (Z.ltb_spec (Py.int (Py.strip value)) 0); [lia|done].
    - left. split; [|done]. intros Hre%fullmatch_digits_iff. congruence. }
  split; [exact Hcases|]. split; [|reflexivity].
  destruct Hcases as [[_ ->]|(_ & _ & ->)]; discriminate.
Qed.

(** ** Settings resolver *)

Lemma resolve_with_source_cli {A} (v : A) config key dflt :
  resolve_with_source (Some v) config key dflt = (v, "cli").
Proof. reflexivity. Qed.

Lemma resolve_with_source_config {A} (v : A) config key dflt :
  config_get config key = Some v ->
  resolve_with_source None config key dflt = (v, "config").
Proof. unfold resolve_with_source. by intros ->. Qed.

Lemma resolve_with_source_default {A} config (key : Key A) dflt :
  config_get config key = None ->
  resolve_with_source None config key dflt = (dflt, "default").
Proof. unfold resolve_with_source. by intros ->. Qed.

(** C1. In normal resolution each of the four fields takes the command
    line value when one was supplied, else the config-file value when the
    key is present, else the built-in default, and records "cli",
    "config" or "default" accordingly; each field is resolved from its
    own three inputs only. *)
Theorem resolve_settings_precedence
    (cli_time : option (list string)) (cli_compact cli_no_bell : option bool)
    (cli_bar_width : option Z) (config : Config) :
  let r := resolve_settings false cli_time cli_compact cli_no_bell
             cli_bar_width config in
  (r_time_values r, src_time (r_sources r)) =
    match cli_time, cfg_time config with
    | Some v, _ => (v, "cli")
    | None, Some v => (v, "config")
    | None, None => (["30"; "5"; "0"], "default")
    end
  /\ (r_compact r, src_compact (r_sources r)) =
    match cli_compact, cfg_compact config with
    | Some v, _ => (v, "cli")
    | None, Some v => (v, "config")
    | None, None => (false, "default")
    end
  /\ (r_no_bell r, src_no_bell (r_sources r)) =
    match cli_no_bell, cfg_no_bell config with
    | Some v, _ => (v, "cli")
    | None, Some v => (v, "config")
    | None, None => (false, "default")
    end
  /\ (r_bar_width r, src_bar_width (r_sources r)) =
    match cli_bar_width, cfg_bar_width config with
    | Some v, _ => (v, "cli")
    | None, Some v => (v, "config")
    | None, None => (30, "default")
    end
  /\ resolve_with_source None
       {| cfg_time := None; cfg_compact := None; cfg_no_bell := None;
          cfg_bar_width := Some 15 |} K_bar_width 30 = (15, "config")
  /\ resolve_with_source (Some 20)
       {| cfg_time := None; cfg_compact := None; cfg_no_bell := None;
          cfg_bar_width := Some 15 |} K_bar_width 30 = (20, "cli").
Proof.
  destruct config as [ft fc fn fb]. simpl.
  destruct cli_time, cli_compact, cli_no_bell, cli_bar_width, ft, fc, fn, fb;
    repeat split.
Qed.


(** ** Stage sequence *)

Section Pairs.
Context {A B : Type} (f g : A -> B).

Lemma fold_left_pairs (l : list A) (init : list B) :
  fold_left (fun acc x => (acc ++ [f x]) ++ [g x]) l init
  = init ++ flat_map (fun x => [f x; g x]) l.
Proof.
  revert init. induction l as [|x l IH]; intros init; simpl.
  - by rewrite app_nil_r.
  - rewrite IH. by rewrite <- !app_assoc.
Qed.

Lemma length_pairs (l : list A) :
  length (flat_map (fun x => [f x; g x]) l) = (2 * length l)%nat.
Proof. induction l as [|x l IH]; simpl; lia. Qed.

Lemma lookup_pairs (l : list A) (k : nat) :
  flat_map (fun x => [f x; g x]) l !! (2 * k)%nat = f <$> l !! k
  /\ flat_map (fun x => [f x; g x]) l !! (2 * k + 1)%nat = g <$> l !! k.
Proof.
  revert k. induction l as [|x l IH]; intros k; [done|].
  destruct k as [|k]; [done|].
  replace (2 * S k)%nat with (S (S (2 * k))) by lia.
  replace (S (S (2 * k)) + 1)%nat with (S (S (2 * k + 1))) by lia.
  simpl. apply IH.
Qed.
End Pairs.

Lemma range_length a b : length (Py.range a b) = Z.to_nat (b - a).
Proof. unfold Py.range. by rewrite length_map, length_seq. Qed.

Lemma range_lookup a b (k : nat) :
  (k < Z.to_nat (b - a))%nat -> Py.range a b !! k = Some (a + Z.of_nat k).
Proof.
  intros Hk. unfold Py.range. rewrite list_lookup_fmap.
  rewrite lookup_seq_lt by done. done.
Qed.

Lemma build_stages_pairs focus rest repeats :
  build_stages focus rest repeats =
  flat_map (fun cycle =>
              [ (stage_label "Focus" cycle (repeats + 1), focus);
                (stage_label "Rest" cycle (repeats + 1), rest) ])
    (Py.range 1 (repeats + 1 + 1)).
Proof.
  unfold build_stages.
  apply (fold_left_pairs
           (fun cycle => (stage_label "Focus" cycle (repeats + 1), focus))
           (fun cycle => (stage_label "Rest" cycle (repeats + 1), rest))).
Qed.

(** ** What the parsers return *)

(** One step through a chain of [let*]: case on the first result. *)
Ltac step_result :=
  match goal with
  | |- context [bind ?r _] => destruct r eqn:?; simpl
  | |- context [match ?e with ArgumentTypeError _ => _ | _ => _ end] =>
      destruct e; simpl
  end.

Lemma parse_duration_pos value n : parse_duration value = Ok n -> 0 < n.
Proof.
  unfold parse_duration.
  destruct (fullmatch_duration _) as [[g1 g2]|]; [|done].
  destruct (Z.leb_spec (Py.int g1) 0); [done|].
  destruct (String.eqb _ "m"); intros [= <-]; lia.
Qed.

Lemma parse_repeat_nonneg value n : parse_repeat value = Ok n -> 0 <= n.
Proof.
  unfold parse_repeat. destruct (negb _); [done|].
  destruct (Z.ltb_spec (Py.int (Py.strip value)) 0); [done|].
  intros [= <-]. done.
Qed.

Lemma parse_bar_width_min value n : parse_bar_width value = Ok n -> MIN_BAR_WIDTH <= n.
Proof.
  unfold parse_bar_width. destruct (negb _); [done|].
  destruct (Z.ltb_spec (Py.int (Py.strip value)) MIN_BAR_WIDTH); [done|].
  intros [= <-]. done.
Qed.

Lemma parse_bar_width_raises value e :
  parse_bar_width value = Raise e -> exists msg, e = ArgumentTypeError msg.
Proof.
  unfold parse_bar_width. destruct (negb _); [intros [= <-]; eauto|].
  destruct (_ <? _); [intros [= <-]; eauto|done].
Qed.

Lemma parse_duration_raises value e :
  parse_duration value = Raise e -> exists msg, e = ArgumentTypeError msg.
Proof.
  unfold parse_duration. destruct (fullmatch_duration _) as [[g1 g2]|];
    [|intros [= <-]; eauto].
  destruct (_ <=? _); [intros [= <-]; eauto|].
  by destruct (String.eqb _ "m").
Qed.

Lemma parse_repeat_raises value e :
  parse_repeat value = Raise e -> exists msg, e = ArgumentTypeError msg.
Proof.
  unfold parse_repeat. destruct (negb _); [intros [= <-]; eauto|].
  destruct (_ <? _); [intros [= <-]; eauto|done].
Qed.

(** [str(n)] of a negative [n] starts with a sign and is refused. *)
Lemma fullmatch_digits_negative n : n < 0 -> fullmatch_digits (Py.strip (Py.str_int n)) = false.
Proof.
  intros Hn. unfold Py.str_int. destruct (Z.ltb_spec n 0); [|lia].
  unfold Py.strip. rewrite lstrip_no_space by done.
  destruct (rstrip_head "-" (Py.str_nonneg (- n)) eq_refl) as [r ->].
  unfold fullmatch_digits. simpl. done.
Qed.

(** Converting an integer to text and parsing it back gives the integer,
    when it is a valid bar width. *)
Lemma parse_bar_width_str_int n :
  MIN_BAR_WIDTH <= n -> parse_bar_width (Py.str_int n) = Ok n.
Proof.
  intros Hn. assert (0 <= n) as Hn0 by (unfold MIN_BAR_WIDTH in Hn; lia).
  destruct (int_str_int n Hn0) as (Hint & Hall & Hne).
  unfold parse_bar_width. rewrite strip_digits by done.
  unfold fullmatch_digits. rewrite Hall, Hint.
  destruct (String.eqb_spec (Py.str_int n) ""); [done|]. simpl.
  destruct (Z.ltb_spec n MIN_BAR_WIDTH); [lia|done].
Qed.

Lemma parse_bar_width_str_int_inv n w :
  parse_bar_width (Py.str_int n) = Ok w -> w = n /\ MIN_BAR_WIDTH <= n.
Proof.
  intros H. destruct (Z.lt_ge_cases n 0) as [Hneg|Hpos].
  - unfold parse_bar_width in H. by rewrite fullmatch_digits_negative in H.
  - pose proof (parse_bar_width_min _ _ H) as Hmin.
    destruct (int_str_int n Hpos) as (Hint & Hall & Hne).
    unfold parse_bar_width in H. rewrite strip_digits in H by done.
    destruct (negb _); [done|]. rewrite Hint in H.
    destruct (_ <? _); [done|]. injection H as <-.
    split; [done|]. unfold parse_bar_width in Hmin. done.
Qed.

Lemma convert_bar_width_min raw w :
  convert_bar_width raw = Ok (Some w) -> MIN_BAR_WIDTH <= w.
Proof.
  destruct raw as [text|]; [|done]. simpl.
  destruct (parse_bar_width text) as [w'|e] eqn:E.
  - intros [= <-]. by eapply parse_bar_width_min.
  - by destruct e.
Qed.

Lemma convert_bar_width_raises raw e :
  convert_bar_width raw = Raise e -> exists msg, e = ParserError msg.
Proof.
  destruct raw as [text|]; [|done]. simpl.
  destruct (parse_bar_width text) as [w'|e'] eqn:E; [done|].
  apply parse_bar_width_raises in E as [msg ->]. intros [= <-]. eauto.
Qed.

Lemma normalize_time_values_raises raw e :
  normalize_time_values raw = Raise e -> e = ParserError time_usage.
Proof.
  destruct raw as [raw|]; [|done]. unfold normalize_time_values.
  destruct (_ || _); [|done]. by intros [= <-].
Qed.

(** The values [normalize_time_values] lets through: three texts, none
    empty, with nothing left to strip. *)
Lemma normalize_time_values_ok raw values :
  normalize_time_values raw = Ok (Some values) ->
  exists t0 t1 t2, values = [t0; t1; t2]
    /\ Py.strip t0 = t0 /\ Py.strip t1 = t1 /\ Py.strip t2 = t2
    /\ t0 <> "" /\ t1 <> "" /\ t2 <> "".
Proof.
  destruct raw as [raw|]; [|done]. unfold normalize_time_values.
  set (vals := match raw with
               | [one] => if Py.has_comma one then map Py.strip (Py.split_comma one)
                          else map Py.strip raw
               | _ => map Py.strip raw
               end).
  assert (Hstripped : Forall (fun v => Py.strip v = v) vals).
  { assert (Hmap : forall l, Forall (fun v => Py.strip v = v) (map Py.strip l)).
    { intros l. apply Forall_forall. intros v [u [-> _]]%list_elem_of_fmap.
      apply strip_idem. }
    subst vals. destruct raw as [|one [|two rest]]; [apply Hmap| |apply Hmap].
    destruct (Py.has_comma one); apply Hmap. }
  destruct (negb (length vals =? 3)%nat) eqn:Hlen; [done|].
  destruct (existsb (String.eqb "") vals) eqn:Hex; [done|]. simpl.
  intros [= <-]. apply negb_false_iff, Nat.eqb_eq in Hlen.
  destruct vals as [|t0 [|t1 [|t2 [|t3 rest]]]]; try done.
  inversion Hstripped as [|? ? H0 Hs1]; subst.
  inversion Hs1 as [|? ? H1 Hs2]; subst.
  inversion Hs2 as [|? ? H2 _]; subst.
  simpl in Hex. apply orb_false_elim in Hex as [E0 Hex].
  apply orb_false_elim in Hex as [E1 Hex]. apply orb_false_elim in Hex as [E2 _].
  exists t0, t1, t2.
  repeat split; try done; intros ->; done.
Qed.

Lemma validate_ok r focus rest repeats width :
  validate r = Ok (focus, rest, repeats, width) ->
  exists t0 t1 t2 more,
    r_time_values r = t0 :: t1 :: t2 :: more
    /\ parse_duration t0 = Ok focus /\ parse_duration t1 = Ok rest
    /\ parse_repeat t2 = Ok repeats
    /\ parse_bar_width (Py.str_int (r_bar_width r)) = Ok width.
Proof.
  unfold validate, getitem.
  destruct (r_time_values r) as [|t0 [|t1 [|t2 more]]]; simpl; try done;
    repeat (step_result; try done).
  intros [= <- <- <- <-]. exists t0, t1, t2, more. done.
Qed.

Lemma validate_raises r e :
  validate r = Raise e ->
  (exists msg, e = ParserError msg) \/ (length (r_time_values r) < 3)%nat.
Proof.
  unfold validate, getitem.
  destruct (r_time_values r) as [|t0 [|t1 [|t2 more]]]; simpl;
    try (intros _; right; lia).
  destruct (parse_duration t0) as [f|e0] eqn:E0; simpl;
    [|apply parse_duration_raises in E0 as [msg ->]; intros [= <-]; eauto].
  destruct (parse_duration t1) as [rs|e1] eqn:E1; simpl;
    [|apply parse_duration_raises in E1 as [msg ->]; intros [= <-]; eauto].
  destruct (parse_repeat t2) as [rp|e2] eqn:E2; simpl;
    [|apply parse_repeat_raises in E2 as [msg ->]; intros [= <-]; eauto].
  destruct (parse_bar_width _) as [w|e3] eqn:E3; simpl; [done|].
  apply parse_bar_width_raises in E3 as [msg ->]. intros [= <-]. eauto.
Qed.

(** ** The entry point *)

(** A run that reaches the countdown has validated its values, built the
    whole stage list and written nothing. *)
Lemma main_countdown env args fs stages compact width no_bell fs' :
  main env args fs = (Ok (Countdown stages compact width no_bell), fs') ->
  exists focus rest repeats,
    0 < focus /\ 0 < rest /\ 0 <= repeats /\ MIN_BAR_WIDTH <= width
    /\ stages = build_stages focus rest repeats /\ fs' = fs.
Proof.
  unfold main. intros H.
  repeat (case_match; simplify_eq/=).
  match goal with Hv : validate _ = Ok _ |- _ =>
    apply validate_ok in Hv as (t0 & t1 & t2 & more & _ & Hf & Hr & Hn & Hw) end.
  eexists _, _, _. repeat split; try done.
  - by eapply parse_duration_pos.
  - by eapply parse_duration_pos.
  - by eapply parse_repeat_nonneg.
  - by eapply parse_bar_width_min.
Qed.

(** C3. The stage list has two stages per cycle for [repeats + 1]
    cycles: cycle [i] of [n] gives ("Focus i/n", focus) and then
    ("Rest i/n", rest), in cycle order; no repeat gives the single pair
    of cycle 1/1; and a run that starts the countdown hands it the
    complete list. *)
Theorem stage_sequence :
  (forall focus rest repeats,
     0 <= repeats ->
     let n := repeats + 1 in
     let stages := build_stages focus rest repeats in
     length stages = Z.to_nat (2 * n)
     /\ forall i, 1 <= i <= n ->
          stages !! Z.to_nat (2 * (i - 1))
            = Some ("Focus " +:+ Py.str_int i +:+ "/" +:+ Py.str_int n, focus)
          /\ stages !! Z.to_nat (2 * (i - 1) + 1)
            = Some ("Rest " +:+ Py.str_int i +:+ "/" +:+ Py.str_int n, rest))
  /\ (forall focus rest,
        build_stages focus rest 0 = [("Focus 1/1", focus); ("Rest 1/1", rest)])
  /\ (forall focus rest,
        map fst (build_stages focus rest 2)
        = ["Focus 1/3"; "Rest 1/3"; "Focus 2/3"; "Rest 2/3"; "Focus 3/3"; "Rest 3/3"])
  /\ (forall env args fs stages compact width no_bell fs',
        main env args fs = (Ok (Countdown stages compact width no_bell), fs') ->
        exists focus rest repeats,
          0 <= repeats /\ stages = build_stages focus rest repeats
          /\ length stages = Z.to_nat (2 * (repeats + 1))).
Proof.
  assert (Hlen : forall focus rest repeats, 0 <= repeats ->
            length (build_stages focus rest repeats) = Z.to_nat (2 * (repeats + 1))).
  { intros focus rest repeats Hrep.
    rewrite build_stages_pairs, length_pairs, range_length. lia. }
  split; [|split; [done|split; [done|]]].
  - intros focus rest repeats Hrep n stages. subst n stages.
    split; [by apply Hlen|]. intros i Hi.
    rewrite build_stages_pairs. split.
    + replace (Z.to_nat (2 * (i - 1))) with (2 * Z.to_nat (i - 1))%nat by lia.
      rewrite (proj1 (lookup_pairs _ _ _ _)).
      rewrite range_lookup by lia.
      simpl. replace (1 + Z.of_nat (Z.to_nat (i - 1))) with i by lia. done.
    + replace (Z.to_nat (2 * (i - 1) + 1)) with (2 * Z.to_nat (i - 1) + 1)%nat by lia.
      rewrite (proj2 (lookup_pairs _ _ _ _)).
      rewrite range_lookup by lia.
      simpl. replace (1 + Z.of_nat (Z.to_nat (i - 1))) with i by lia. done.
  - intros env args fs stages compact width no_bell fs' Hrun.
    apply main_countdown in Hrun
      as (focus & rest & repeats & _ & _ & Hrep & _ & -> & _).
    exists focus, rest, repeats. repeat split; [done|by apply Hlen].
Qed.

Lemma stage_sequence_witness :
  length (build_stages 1500 300 2) = 6%nat
  /\ exists focus rest repeats,
       0 <= repeats
       /\ build_stages 1500 300 2 = build_stages focus rest repeats
       /\ length (build_stages 1500 300 2) = Z.to_nat (2 * (repeats + 1)).
Proof.
  split.
  - apply (proj1 stage_sequence 1500 300 2). lia.
  - apply (proj2 (proj2 (proj2 stage_sequence)) sample_env
             {| arg_time := Some ["25"; "5m"; "2"]; arg_compact := None;
                arg_no_bell := None; arg_bar_width := None; arg_config := None;
                arg_write_config := false; arg_status := false;
                arg_save_config := false; arg_force := false |}
             ∅ (build_stages 1500 300 2) false 30 false ∅).
    vm_compute. reflexivity.
Defined.

Lemma normalize_time_values_supplied raw values :
  normalize_time_values raw = Ok values -> supplied values = supplied raw.
Proof.
  destruct raw as [raw|]; [|by intros [= <-]]. unfold normalize_time_values.
  destruct (_ || _); [done|]. by intros [= <-].
Qed.

Lemma convert_bar_width_supplied raw width :
  convert_bar_width raw = Ok width -> supplied width = supplied raw.
Proof.
  destruct raw as [text|]; [|by intros [= <-]]. simpl.
  destruct (parse_bar_width text) as [w|[]]; try done. by intros [= <-].
Qed.




(** ** Loading the config *)

Lemma main_load_raises env args fs e :
  arg_save_config args = true ->
  load_config env fs (config_path_of env args) = Raise e ->
  exists e', main env args fs = (Raise e', fs)
    /\ ((exists msg, e = ValueError msg) -> exists msg, e' = ParserError msg).
Proof.
  intros Hsave Hload. unfold main.
  destruct (convert_bar_width _) as [cb|e0] eqn:Hcb;
    [|apply convert_bar_width_raises in Hcb as [msg ->]; eauto].
  destruct (normalize_time_values _) as [ct|e0] eqn:Hct;
    [|apply normalize_time_values_raises in Hct as ->; eauto].
  rewrite Hsave, Hload.
  destruct (arg_force args), (arg_write_config args), (arg_status args);
    simpl; try (by eauto).
  all: destruct e; eexists; (split; [reflexivity|]); intros [msg' [=]]; eauto.
Qed.


Lemma elem_of_unknown_keys (data : gmap string pyval) (key : string) :
  key ∈ unknown_keys data <-> is_Some (data !! key) /\ key ∉ allowed_keys.
Proof.
  unfold unknown_keys. rewrite list_elem_of_filter, list_elem_of_fmap. split.
  - intros [Hnot ([k v] & -> & Hin%elem_of_map_to_list)]. simpl in *. eauto.
  - intros [[v Hv] Hnot]. split; [done|]. exists (key, v).
    split; [done|]. by apply elem_of_map_to_list.
Qed.

Lemma elem_of_sorted (keys : list string) (key : string) :
  key ∈ sorted keys <-> key ∈ keys.
Proof. unfold sorted. by rewrite merge_sort_Permutation. Qed.

(** A member of a list is a part of the joined text. *)
Lemma join_contains (sep : string) (l : list string) (x : string) :
  x ∈ l -> exists before after, Py.join sep l = before +:+ x +:+ after.
Proof.
  unfold Py.join. induction l as [|y l IH]; intros Hin; [by apply elem_of_nil in Hin|].
  apply elem_of_cons in Hin as [->|Hin].
  - exists "". destruct l as [|z l].
    + exists "". simpl. by rewrite append_empty_r.
    + exists (sep +:+ String.concat sep (z :: l)). done.
  - destruct (IH Hin) as (before & after & Heq).
    destruct l as [|z l]; [by apply elem_of_nil in Hin|].
    exists (y +:+ sep +:+ before), after.
    change (String.concat sep (y :: z :: l))
      with (y +:+ sep +:+ String.concat sep (z :: l)).
    rewrite Heq. by rewrite !append_assoc.
Qed.

Lemma load_config_unknown env fs path text data key :
  fs !! path = Some text ->
  toml_load env text = Ok (PDict data) ->
  key ∈ unknown_keys data ->
  load_config env fs path
  = Raise (ValueError (unknown_keys_message path (unknown_keys data))).
Proof.
  intros Hfile Hparse Hkey. unfold load_config. rewrite Hfile, Hparse.
  remember (unknown_keys data) as keys eqn:Hkeys. simpl. rewrite <- Hkeys.
  destruct keys as [|k ks]; [by apply elem_of_nil in Hkey|done].
Qed.

(** C8. When the parsed table has a key outside the four, [load_config]
    raises the unknown-key error, and its message is the path followed by
    the offending keys, all of them and no others, sorted and separated
    by commas. *)
Theorem load_config_unknown_keys
    (env : Env) (fs : gmap string string) (path text : string)
    (data : gmap string pyval) :
  fs !! path = Some text ->
  toml_load env text = Ok (PDict data) ->
  (exists key, is_Some (data !! key) /\ key ∉ allowed_keys) ->
  exists keys,
    load_config env fs path
    = Raise (ValueError ("unknown config key(s) in " +:+ path +:+ ": "
                           +:+ Py.join ", " keys))
    /\ (forall key, key ∈ keys <-> is_Some (data !! key) /\ key ∉ allowed_keys)
    /\ Sorted string_le keys
    /\ (forall key, is_Some (data !! key) -> key ∉ allowed_keys ->
          exists before after, Py.join ", " keys = before +:+ key +:+ after)
    /\ (forall v, data = {[ "foo" := v ]} -> keys = ["foo"]).
Proof.
  intros Hfile Hparse (key0 & Hin0 & Hnot0).
  exists (sorted (unknown_keys data)).
  assert (Hmem : forall key, key ∈ sorted (unknown_keys data)
                   <-> is_Some (data !! key) /\ key ∉ allowed_keys).
  { intros key. by rewrite elem_of_sorted, elem_of_unknown_keys. }
  repeat split.
  - eapply load_config_unknown; [done..|]. by apply elem_of_unknown_keys.
  - by apply Hmem.
  - by apply Hmem.
  - by apply Hmem.
  - apply Sorted_merge_sort. intros a b. apply String.leb_total.
  - intros key Hin Hnot. apply join_contains. by apply Hmem.
  - intros v ->. unfold unknown_keys. rewrite map_to_list_singleton. done.
Qed.

Lemma load_config_unknown_keys_witness :
  exists keys,
    load_config sample_env {[ sample_path := "foo = 1" ]} sample_path
    = Raise (ValueError ("unknown config key(s) in " +:+ sample_path +:+ ": "
                           +:+ Py.join ", " keys))
    /\ keys = ["foo"].
Proof.
  destruct (load_config_unknown_keys sample_env {[ sample_path := "foo = 1" ]}
              sample_path "foo = 1" {[ "foo" := PInt 1 ]})
    as (keys & Hload & _ & _ & _ & Hfoo).
  - reflexivity.
  - reflexivity.
  - exists "foo". split; [by eexists|]. unfold allowed_keys. intros Hin.
    repeat (apply elem_of_cons in Hin as [Hin|Hin]; [discriminate Hin|]).
    by apply elem_of_nil in Hin.
  - exists keys. split; [exact Hload|]. by apply (Hfoo (PInt 1)).
Defined.

(** *** The per-key checks *)

Lemma normalize_items_raises path items e :
  normalize_items path items = Raise e -> exists msg, e = ValueError msg.
Proof.
  induction items as [|item items IH]; [done|]. simpl.
  destruct item; simpl; try (intros [= <-]; eauto);
    destruct (normalize_items path items); simpl; try done; auto.
Qed.

Lemma normalize_items_bad path items :
  forallb is_text_or_int items = false ->
  exists msg, normalize_items path items = Raise (ValueError msg).
Proof.
  induction items as [|item items IH]; [done|]. simpl.
  intros [Hitem|Hrest]%andb_false_iff.
  - destruct item; try done; simpl; eauto.
  - destruct (IH Hrest) as [msg Hmsg]. rewrite Hmsg.
    destruct item; simpl; eauto.
Qed.

Lemma load_time_raises path data e :
  load_time path data = Raise e -> exists msg, e = ValueError msg.
Proof.
  unfold load_time. destruct (data !! "time") as [[]|]; try done;
    try (intros [= <-]; eauto).
  destruct (negb _); [intros [= <-]; eauto|].
  destruct (normalize_items path xs) as [|e'] eqn:E; [done|]. simpl.
  intros [= <-]. by eapply normalize_items_raises.
Qed.

Lemma load_time_bad path data v :
  data !! "time" = Some v -> well_shaped_time v = false ->
  exists msg, load_time path data = Raise (ValueError msg).
Proof.
  unfold load_time, well_shaped_time. intros -> Hshape.
  destruct v; eauto.
  destruct (length xs =? 3)%nat; simpl in *; [|eauto].
  destruct (normalize_items_bad path xs Hshape) as [msg ->]. simpl. eauto.
Qed.

Lemma load_bool_raises path key data e :
  load_bool path key data = Raise e -> exists msg, e = ValueError msg.
Proof.
  unfold load_bool. destruct (data !! key) as [[]|]; try done;
    intros [= <-]; eauto.
Qed.

Lemma load_bool_bad path key data v :
  data !! key = Some v -> is_bool v = false ->
  exists msg, load_bool path key data = Raise (ValueError msg).
Proof.
  unfold load_bool. intros -> Hv. destruct v; try done; eauto.
Qed.

Lemma load_bar_width_bad path data v :
  data !! "bar_width" = Some v -> is_int v = false ->
  exists msg, load_bar_width path data = Raise (ValueError msg).
Proof.
  unfold load_bar_width. intros -> Hv. destruct v; try done; eauto.
Qed.

(** [load_config] refuses every malformed file with a [ValueError]. *)
Lemma load_config_malformed env fs path text :
  fs !! path = Some text -> malformed env text ->
  exists msg, load_config env fs path = Raise (ValueError msg).
Proof.
  intros Hfile Hbad. unfold load_config. rewrite Hfile.
  destruct Hbad as [msg Hp|data key v Hp Hkey Hnot|data v Hp Hv Hbad
                   |data v Hp Hv Hbad|data v Hp Hv Hbad|data v Hp Hv Hbad];
    rewrite Hp; [simpl; eauto|..].
  all: remember (unknown_keys data) as keys eqn:Hkeys; simpl; rewrite <- Hkeys.
  all: destruct keys as [|k ks]; [|eauto].
  - assert (key ∈ unknown_keys data) as Hin
      by (apply elem_of_unknown_keys; eauto).
    rewrite <- Hkeys in Hin. by apply elem_of_nil in Hin.
  - destruct (load_time_bad path data v Hv Hbad) as [msg ->]. simpl. eauto.
  - destruct (load_time path data) as [|e] eqn:Et; simpl;
      [|apply load_time_raises in Et as [msg ->]; eauto].
    destruct (load_bool_bad path "compact" data v Hv Hbad) as [msg ->]. simpl. eauto.
  - destruct (load_time path data) as [|e] eqn:Et; simpl;
      [|apply load_time_raises in Et as [msg ->]; eauto].
    destruct (load_bool path "compact" data) as [|e] eqn:Ec; simpl;
      [|apply load_bool_raises in Ec as [msg ->]; eauto].
    destruct (load_bool_bad path "no_bell" data v Hv Hbad) as [msg ->]. simpl. eauto.
  - destruct (load_time path data) as [|e] eqn:Et; simpl;
      [|apply load_time_raises in Et as [msg ->]; eauto].
    destruct (load_bool path "compact" data) as [|e] eqn:Ec; simpl;
      [|apply load_bool_raises in Ec as [msg ->]; eauto].
    destruct (load_bool path "no_bell" data) as [|e] eqn:En; simpl;
      [|apply load_bool_raises in En as [msg ->]; eauto].
    destruct (load_bar_width_bad path data v Hv Hbad) as [msg ->]. simpl. eauto.
Qed.

(** C10. In save-config mode the config file is loaded before anything
    is saved: whenever [load_config] refuses it, and so for every
    malformed file (text that is not TOML, an unknown key, a value of the
    wrong type or shape), the run ends on an error and every file is
    left as it was. *)
Theorem save_config_loads_first (env : Env) (args : Args) (fs : gmap string string) :
  arg_save_config args = true ->
  (forall e, load_config env fs (config_path_of env args) = Raise e ->
             exists e', main env args fs = (Raise e', fs))
  /\ (forall text, fs !! config_path_of env args = Some text ->
                   malformed env text ->
                   exists msg, main env args fs = (Raise (ParserError msg), fs)).
Proof.
  intros Hsave. split.
  - intros e Hload.
    destruct (main_load_raises env args fs e Hsave Hload) as (e' & Hrun & _). eauto.
  - intros text Hfile Hbad.
    destruct (load_config_malformed env fs _ text Hfile Hbad) as [msg Hload].
    destruct (main_load_raises env args fs _ Hsave Hload) as (e' & Hrun & Hparser).
    destruct Hparser as [msg' ->]; eauto.
Qed.

Lemma save_config_loads_first_witness :
  (exists e', main sample_env save_config_with_options {[ sample_path := "foo = 1" ]}
              = (Raise e', {[ sample_path := "foo = 1" ]}))
  /\ (exists msg, main sample_env save_config_only {[ sample_path := "not toml" ]}
                  = (Raise (ParserError msg), {[ sample_path := "not toml" ]})).
Proof.
  split.
  - eapply (proj1 (save_config_loads_first sample_env save_config_with_options
                     {[ sample_path := "foo = 1" ]} eq_refl)).
    vm_compute. reflexivity.
  - eapply (proj2 (save_config_loads_first sample_env save_config_only
                     {[ sample_path := "not toml" ]} eq_refl) "not toml").
    + reflexivity.
    + eapply bad_syntax. reflexivity.
Defined.

(** ** Save-config mode *)




(** ** How a run can fail *)

Lemma normalize_items_length path items l :
  normalize_items path items = Ok l -> length l = length items.
Proof.
  revert l. induction items as [|item items IH]; intros l; simpl; [by intros [= <-]|].
  destruct item; simpl; try done;
    destruct (normalize_items path items) as [l'|]; simpl; try done;
    intros [= <-]; simpl; f_equal; by apply IH.
Qed.

Lemma load_time_length path data l :
  load_time path data = Ok (Some l) -> length l = 3%nat.
Proof.
  unfold load_time. destruct (data !! "time") as [[]|]; try done.
  destruct (length xs =? 3)%nat eqn:Hlen; [|done]. simpl.
  destruct (normalize_items path xs) as [l'|] eqn:E; [|done]. simpl.
  intros [= <-]. apply normalize_items_length in E. apply Nat.eqb_eq in Hlen. lia.
Qed.

Lemma load_config_time_length env fs path config l :
  load_config env fs path = Ok config -> cfg_time config = Some l -> length l = 3%nat.
Proof.
  unfold load_config. destruct (fs !! path) as [text|]; [|by intros [= <-]].
  destruct (toml_load env text) as [[]|[]]; simpl; try done.
  destruct (unknown_keys m); [|done].
  destruct (load_time path m) as [time|] eqn:Et; [|done]. simpl.
  destruct (load_bool path "compact" m); [|done]. simpl.
  destruct (load_bool path "no_bell" m); [|done]. simpl.
  destruct (load_bar_width path m); [|done]. simpl.
  intros [= <-]. simpl. intros ->. by eapply load_time_length.
Qed.

Lemma resolved_time_values mode cli_time c n b config :
  r_time_values (resolve_settings mode cli_time c n b config)
  = match cli_time with
    | Some v => v
    | None => if mode then BUILTIN_DEFAULT_TIME
              else default BUILTIN_DEFAULT_TIME (cfg_time config)
    end.
Proof.
  destruct config as [ft fc fn fb].
  by destruct mode, cli_time, c, n, b, ft, fc, fn, fb.
Qed.

Lemma resolved_time_length env fs path config raw cli_time mode c n b :
  load_config env fs path = Ok config ->
  normalize_time_values raw = Ok cli_time ->
  length (r_time_values (resolve_settings mode cli_time c n b config)) = 3%nat.
Proof.
  intros Hload Hnorm. rewrite resolved_time_values.
  destruct cli_time as [values|].
  - apply normalize_time_values_ok in Hnorm as (t0 & t1 & t2 & -> & _). done.
  - destruct mode; [done|].
    destruct (cfg_time config) eqn:Hcfg; [|done]. simpl.
    by eapply load_config_time_length.
Qed.


(** A run that ends on an exception has written nothing, and the
    exception is [parser.error] unless [load_config] raised something
    other than a [ValueError], which [main] lets through. *)
Lemma main_raises env args fs e fs' :
  main env args fs = (Raise e, fs') ->
  fs' = fs
  /\ ((exists msg, e = ParserError msg)
      \/ (load_config env fs (config_path_of env args) = Raise e
          /\ forall msg, e <> ValueError msg)).
Proof.
  unfold main.
  destruct (convert_bar_width _) as [cb|e0] eqn:Hcb;
    [|apply convert_bar_width_raises in Hcb as [msg ->]; intros [= <- <-]; eauto].
  destruct (normalize_time_values _) as [ct|e0] eqn:Hct;
    [|apply normalize_time_values_raises in Hct as ->; intros [= <- <-]; eauto].
  destruct (arg_force args && negb (arg_write_config args));
    [intros [= <- <-]; eauto|].
  destruct (arg_write_config args && arg_save_config args);
    [intros [= <- <-]; eauto|].
  destruct (arg_status args && arg_write_config args);
    [intros [= <- <-]; eauto|].
  destruct (arg_status args && arg_save_config args);
    [intros [= <- <-]; eauto|].
  destruct (arg_write_config args).
  { destruct (_ || _); [intros [= <- <-]; eauto|].
    unfold write_config. destruct (_ && _); simpl; [intros [= <- <-]; eauto|done]. }
  destruct (load_config _ _ _) as [config|e0] eqn:Hload.
  2:{ destruct e0; intros [= <- <-]; split; try done; eauto.
      all: right; split; [done|]; intros msg'; discriminate. }
  pose proof (resolved_time_length env fs _ config _ ct (arg_save_config args)
                (arg_compact args) (arg_no_bell args) cb Hload Hct) as Hlen.
  destruct (validate _) as [[[[focus rest] repeats] width]|e0] eqn:Hvalid.
  2:{ apply validate_raises in Hvalid as [[msg ->]|Hshort];
        [intros [= <- <-]; eauto|lia]. }
  destruct (r_time_values _) as [|t0 [|t1 [|t2 [|t3 more]]]]; try done. simpl.
  destruct (arg_status args); [done|].
  destruct (arg_save_config args); done.
Qed.

Lemma load_bar_width_raises path data e :
  load_bar_width path data = Raise e ->
  (exists msg, e = ValueError msg)
  \/ (exists msg v, e = ArgumentTypeError msg
                    /\ data !! "bar_width" = Some v /\ is_int v = true).
Proof.
  unfold load_bar_width. destruct (data !! "bar_width") as [[]|]; try done;
    try (intros [= <-]; eauto).
  all: destruct (parse_bar_width _) as [|e'] eqn:E; [done|]; simpl.
  all: apply parse_bar_width_raises in E as [msg ->]; intros [= <-].
  all: right; eauto.
Qed.

(** What [load_config] can raise besides a [ValueError]: an exception of
    the TOML reader other than a decode error, or the [ArgumentTypeError]
    of [parse_bar_width] on an integer [bar_width]. *)
Lemma load_config_raises env fs path e :
  load_config env fs path = Raise e ->
  (exists msg, e = ValueError msg)
  \/ (exists text, fs !! path = Some text /\ toml_load env text = Raise e)
  \/ (exists text data msg v,
        fs !! path = Some text /\ toml_load env text = Ok (PDict data)
        /\ e = ArgumentTypeError msg
        /\ data !! "bar_width" = Some v /\ is_int v = true).
Proof.
  unfold load_config. destruct (fs !! path) as [text|]; [|done].
  destruct (toml_load env text) as [[]|e0] eqn:Hp; simpl;
    try (intros [= <-]; eauto).
  - destruct (unknown_keys m); [|intros [= <-]; eauto].
    destruct (load_time path m) as [|e1] eqn:Et; simpl;
      [|apply load_time_raises in Et as [msg ->]; intros [= <-]; eauto].
    destruct (load_bool path "compact" m) as [|e1] eqn:Ec; simpl;
      [|apply load_bool_raises in Ec as [msg ->]; intros [= <-]; eauto].
    destruct (load_bool path "no_bell" m) as [|e1] eqn:En; simpl;
      [|apply load_bool_raises in En as [msg ->]; intros [= <-]; eauto].
    destruct (load_bar_width path m) as [|e1] eqn:Eb; simpl; [done|].
    apply load_bar_width_raises in Eb as [[msg ->]|(msg & v & -> & Hv & Hint)];
      intros [= <-]; [eauto|].
    right. right. exists text, m, msg, v. done.
  - destruct e0; intros [= <-]; eauto 10.
Qed.

(** C6, the failing run. With no option on the command line and a config
    file holding [bar_width = 5], [load_config] raises the
    [ArgumentTypeError] of [parse_bar_width]; [main] catches [ValueError]
    only, so the exception leaves [main]: the run ends before any stage,
    with a traceback and exit status 1, and not on [parser.error]. *)
Theorem config_bar_width_error_uncaught :
  let fs : gmap string string := {[ sample_path := "bar_width = 5" ]} in
  load_config sample_env fs sample_path
    = Raise (ArgumentTypeError "bar width must be at least 10.")
  /\ main sample_env no_args fs
     = (Raise (ArgumentTypeError "bar width must be at least 10."), fs)
  /\ exit_status (main sample_env no_args fs).1 = Some 1
  /\ (forall msg, (main sample_env no_args fs).1 <> Raise (ParserError msg)).
Proof.
  assert (Hrun : main sample_env no_args {[ sample_path := "bar_width = 5" ]}
                 = (Raise (ArgumentTypeError "bar width must be at least 10."),
                    {[ sample_path := "bar_width = 5" ]}))
    by (vm_compute; reflexivity).
  simpl. rewrite Hrun. repeat split; done.
Qed.

(** ** The progress bar *)

Lemma spec_filled_div remaining total width :
  0 < total -> spec_filled remaining total width = remaining * width / total.
Proof.
  intros Ht. unfold spec_filled. destruct (Z.eqb_spec total 0); [lia|].
  destruct total as [|p|p]; try lia.
  unfold Qfloor, Qdiv, Qmult, Qinv, inject_Z. simpl.
  f_equal; lia.
Qed.

Lemma range_elem a b x : a <= x < b -> x ∈ Py.range a b.
Proof.
  intros Hx. unfold Py.range. apply list_elem_of_fmap.
  exists (Z.to_nat (x - a)). split; [lia|].
  apply elem_of_seq. lia.
Qed.

Lemma forallb_elem {A} (f : A -> bool) (l : list A) (x : A) :
  forallb f l = true -> x ∈ l -> f x = true.
Proof.
  intros Hall Hin. apply list_elem_of_In in Hin.
  by apply (proj1 (forallb_forall f l) Hall).
Qed.

Lemma bar_agrees_upto_30 : bar_agrees_upto 30 = true.
Proof. vm_compute. reflexivity. Qed.

Lemma render_bar_empty width :
  render_bar 0 width = "[" +:+ Py.repeat_char "-" width +:+ "]".
Proof. unfold render_bar. by rewrite Z.sub_0_r. Qed.


Lemma bar_agrees_upto_spec bound remaining total width :
  bar_agrees_upto bound = true ->
  0 <= remaining <= total -> 0 < total <= bound -> 0 <= width <= bound ->
  bar_agrees remaining total width = true.
Proof.
  unfold bar_agrees_upto. intros Hall Hr Ht Hw.
  apply (forallb_elem _ _ total) in Hall; [|apply range_elem; lia].
  apply (forallb_elem _ _ remaining) in Hall; [|apply range_elem; lia].
  apply (forallb_elem _ _ width) in Hall; [|apply range_elem; lia].
  exact Hall.
Qed.

Lemma build_bar_bounded remaining total width :
  0 <= remaining <= total -> 0 < total <= 30 -> 0 <= width <= 30 ->
  exists filled,
    filled_count remaining total width = Ok filled
    /\ (filled = spec_filled remaining total width
        \/ (filled = spec_filled remaining total width - 1
            /\ (remaining * width) mod total = 0)).
Proof.
  intros Hr Ht Hw.
  pose proof (bar_agrees_upto_spec 30 remaining total width
                bar_agrees_upto_30 Hr Ht Hw) as Hall.
  unfold bar_agrees in Hall.
  destruct (filled_count remaining total width) as [filled|]; [|done].
  exists filled. split; [done|].
  destruct ((remaining * width) mod total =? 0) eqn:Hmod.
  - apply Z.eqb_eq in Hmod. apply orb_prop in Hall as [Heq|Heq];
      apply Z.eqb_eq in Heq; auto.
  - apply Z.eqb_eq in Hall. auto.
Qed.




(** * Further properties of the parsers *)

Lemma isspace_lower_char c : Py.isspace (Py.lower_char c) = Py.isspace c.
Proof. by destruct c as [[] [] [] [] [] [] [] []]. Qed.

Lemma isdigit_lower_char c : Py.isdigit c = true -> Py.lower_char c = c.
Proof. by destruct c as [[] [] [] [] [] [] [] []]. Qed.

Lemma lower_lstrip s : Py.lower (Py.lstrip s) = Py.lstrip (Py.lower s).
Proof.
  induction s as [|c s IH]; [done|]. simpl.
  rewrite isspace_lower_char. by destruct (Py.isspace c).
Qed.

Lemma lower_rstrip s : Py.lower (Py.rstrip s) = Py.rstrip (Py.lower s).
Proof.
  induction s as [|c s IH]; [done|]. simpl.
  rewrite <- IH, isspace_lower_char.
  destruct (Py.rstrip s); simpl; [by destruct (Py.isspace c)|done].
Qed.

Lemma lower_strip s : Py.lower (Py.strip s) = Py.strip (Py.lower s).
Proof. unfold Py.strip. by rewrite lower_rstrip, lower_lstrip. Qed.

Lemma lower_digits s : Py.all_digits s = true -> Py.lower s = s.
Proof.
  induction s as [|c s IH]; [done|]. simpl. intros [Hc Hs]%andb_prop.
  by rewrite isdigit_lower_char, IH.
Qed.

Lemma lstrip_all_space s : all_space s = true -> Py.lstrip s = "".
Proof.
  induction s as [|c s IH]; [done|]. simpl. intros [Hc Hs]%andb_prop.
  rewrite Hc. by apply IH.
Qed.

Lemma lstrip_padding pre s : all_space pre = true -> Py.lstrip (pre +:+ s) = Py.lstrip s.
Proof.
  induction pre as [|c pre IH]; [done|]. intros [Hc Hs]%andb_prop.
  rewrite append_cons. simpl. rewrite Hc. by apply IH.
Qed.

Lemma rstrip_all_space s : all_space s = true -> Py.rstrip s = "".
Proof.
  induction s as [|c s IH]; [done|]. simpl. intros [Hc Hs]%andb_prop.
  by rewrite IH, Hc.
Qed.

Lemma rstrip_padding s post : all_space post = true -> Py.rstrip (s +:+ post) = Py.rstrip s.
Proof.
  intros Hpost. induction s as [|c s IH].
  - rewrite append_empty_l. by apply rstrip_all_space.
  - rewrite append_cons. simpl. by rewrite IH.
Qed.

Lemma strip_padding pre s post :
  all_space pre = true -> all_space post = true ->
  Py.strip (pre +:+ s +:+ post) = Py.strip s.
Proof.
  intros Hpre Hpost. unfold Py.strip. rewrite lstrip_padding by done.
  induction s as [|c s IH].
  - rewrite append_empty_l. by rewrite lstrip_all_space.
  - rewrite append_cons. simpl. destruct (Py.isspace c); [done|].
    rewrite <- append_cons. by apply rstrip_padding.
Qed.

(** White space around a value never changes what the three parsers
    make of it. *)
Theorem parsers_ignore_padding (pre value post : string) :
  all_space pre = true -> all_space post = true ->
  parse_duration (pre +:+ value +:+ post) = parse_duration value
  /\ parse_repeat (pre +:+ value +:+ post) = parse_repeat value
  /\ parse_bar_width (pre +:+ value +:+ post) = parse_bar_width value.
Proof.
  intros Hpre Hpost. unfold parse_duration, parse_repeat, parse_bar_width.
  by rewrite (strip_padding pre value post Hpre Hpost).
Qed.

Lemma parsers_ignore_padding_witness :
  parse_duration ("  " +:+ "40" +:+ " ") = parse_duration "40"
  /\ parse_repeat ("  " +:+ "40" +:+ " ") = parse_repeat "40"
  /\ parse_bar_width ("  " +:+ "40" +:+ " ") = parse_bar_width "40".
Proof. apply (parsers_ignore_padding "  " "40" " "); reflexivity. Defined.

(** [parse_duration] does not tell upper case from lower case. *)
Theorem parse_duration_ignores_case (a b : string) :
  Py.lower a = Py.lower b -> parse_duration a = parse_duration b.
Proof.
  intros Heq. unfold parse_duration. by rewrite !lower_strip, Heq.
Qed.

Lemma parse_duration_ignores_case_witness :
  parse_duration "90S" = parse_duration "90s".
Proof. apply parse_duration_ignores_case. reflexivity. Defined.

Lemma fullmatch_duration_digits d :
  d <> "" -> Py.all_digits d = true -> fullmatch_duration d = Some (d, "").
Proof.
  intros Hne Hall. apply fullmatch_duration_some.
  - by rewrite append_empty_r.
  - by apply matches_digits_iff.
  - apply matches_unit_iff. auto.
Qed.


(** An integer [n] of the config file is read through [str(n)]: as a
    duration it is [n] minutes when positive and is refused otherwise; as
    a repeat count it is [n] when not negative and is refused otherwise;
    a boolean is refused as either. *)
Theorem config_integer_values (n : Z) :
  (0 < n -> parse_duration (Py.str_int n) = Ok (n * 60))
  /\ (n = 0 -> parse_duration (Py.str_int n) = Raise (ArgumentTypeError time_not_positive))
  /\ (n < 0 -> parse_duration (Py.str_int n) = Raise (ArgumentTypeError invalid_time_format))
  /\ (0 <= n -> parse_repeat (Py.str_int n) = Ok n)
  /\ (n < 0 -> parse_repeat (Py.str_int n) = Raise (ArgumentTypeError repeat_not_integer))
  /\ (forall b, parse_duration (Py.str_bool b) = Raise (ArgumentTypeError invalid_time_format)
             /\ parse_repeat (Py.str_bool b) = Raise (ArgumentTypeError repeat_not_integer)).
Proof.
  assert (Hpos : 0 <= n ->
            Py.lower (Py.strip (Py.str_int n)) = Py.str_int n
            /\ Py.strip (Py.str_int n) = Py.str_int n
            /\ fullmatch_duration (Py.str_int n) = Some (Py.str_int n, "")
            /\ fullmatch_digits (Py.str_int n) = true
            /\ Py.int (Py.str_int n) = n).
  { intros Hn. destruct (int_str_int n Hn) as (Hint & Hall & Hne).
    rewrite strip_digits, lower_digits by done. repeat split; try done.
    - by apply fullmatch_duration_digits.
    - apply fullmatch_digits_iff, matches_digits_iff. done. }
  assert (Hneg : n < 0 ->
            fullmatch_duration (Py.lower (Py.strip (Py.str_int n))) = None
            /\ fullmatch_digits (Py.strip (Py.str_int n)) = false).
  { intros Hn. split; [|by apply fullmatch_digits_negative].
    unfold Py.str_int. destruct (Z.ltb_spec n 0); [|lia].
    unfold Py.strip. rewrite lstrip_no_space by done.
    destruct (rstrip_head "-" (Py.str_nonneg (- n)) eq_refl) as [r ->].
    done. }
  repeat split.
  - intros Hn. destruct (Hpos ltac:(lia)) as (Hl & _ & Hm & _ & Hi).
    unfold parse_duration. rewrite Hl, Hm, Hi. simpl.
    destruct (Z.leb_spec n 0); [lia|done].
  - intros ->. reflexivity.
  - intros Hn. unfold parse_duration. by rewrite (proj1 (Hneg Hn)).
  - intros Hn. destruct (Hpos Hn) as (_ & Hs & _ & Hd & Hi).
    unfold parse_repeat. rewrite Hs, Hd, Hi. simpl.
    destruct (Z.ltb_spec n 0); [lia|done].
  - intros Hn. unfold parse_repeat. by rewrite (proj2 (Hneg Hn)).
  - by destruct b.
  - by destruct b.
Qed.

Lemma config_integer_values_witness :
  parse_duration (Py.str_int 25) = Ok 1500
  /\ parse_duration (Py.str_int (-3)) = Raise (ArgumentTypeError invalid_time_format)
  /\ parse_repeat (Py.str_int 4) = Ok 4.
Proof.
  split; [|split].
  - apply (proj1 (config_integer_values 25)). lia.
  - apply (proj1 (proj2 (proj2 (config_integer_values (-3))))). lia.
  - apply (proj1 (proj2 (proj2 (proj2 (config_integer_values 4))))). lia.
Defined.

(** [parse_bar_width] has three outcomes: the not-an-integer error when
    the stripped text is not made of digits, the too-small error when the
    digits stand for less than 10, and otherwise their value, which has no
    upper bound. *)
Theorem parse_bar_width_spec (value : string) :
  ( ~ matches digits_re (Py.strip value)
    /\ parse_bar_width value = Raise (ArgumentTypeError bar_width_not_integer))
  \/ ( matches digits_re (Py.strip value)
       /\ 0 <= Py.int (Py.strip value) < 10
       /\ parse_bar_width value = Raise (ArgumentTypeError "bar width must be at least 10."))
  \/ ( matches digits_re (Py.strip value)
       /\ 10 <= Py.int (Py.strip value)
       /\ parse_bar_width value = Ok (Py.int (Py.strip value))).
Proof.
  unfold parse_bar_width.
  destruct (fullmatch_digits (Py.strip value)) eqn:Hm; simpl.
  - pose proof Hm as Hre%fullmatch_digits_iff.
    pose proof Hre as [_ Hall%int_nonneg]%matches_digits_iff.
    unfold MIN_BAR_WIDTH.
    destruct (Z.ltb_spec (Py.int (Py.strip value)) 10); [right; left|right; right];
      repeat split; done || lia.
  - left. split; [|done]. intros Hre%fullmatch_digits_iff. congruence.
Qed.

(** * Further properties of the command line and the config store *)

Lemma split_comma_plain s : Py.has_comma s = false -> Py.split_comma s = [s].
Proof.
  induction s as [|c s IH]; [done|]. simpl.
  destruct (Ascii.eqb c ","); [done|]. simpl. intros Hs. by rewrite IH.
Qed.

Lemma split_comma_field a rest :
  Py.has_comma a = false ->
  Py.split_comma (a +:+ "," +:+ rest) = a :: Py.split_comma rest.
Proof.
  induction a as [|c a IH]; [done|]. intros Ha. simpl in Ha.
  destruct (Ascii.eqb c ",") eqn:Hc; [done|]. simpl in Ha.
  rewrite append_cons. simpl. rewrite Hc. by rewrite IH.
Qed.

Lemma has_comma_field a rest : Py.has_comma (a +:+ "," +:+ rest) = true.
Proof.
  induction a as [|c a IH]; [done|]. rewrite append_cons. simpl.
  rewrite IH. apply orb_true_r.
Qed.

(** One token [FOCUS,REST,REPEAT] is read as the three tokens
    [FOCUS REST REPEAT]. *)
Theorem time_comma_form (a b c : string) :
  Py.has_comma a = false -> Py.has_comma b = false -> Py.has_comma c = false ->
  normalize_time_values (Some [a +:+ "," +:+ b +:+ "," +:+ c])
  = normalize_time_values (Some [a; b; c]).
Proof.
  intros Ha Hb Hc. unfold normalize_time_values.
  rewrite has_comma_field.
  rewrite (split_comma_field a _ Ha), (split_comma_field b _ Hb),
    (split_comma_plain c Hc).
  done.
Qed.

Lemma time_comma_form_witness :
  normalize_time_values (Some ["25m" +:+ "," +:+ " 5" +:+ "," +:+ "3"])
  = normalize_time_values (Some ["25m"; " 5"; "3"]).
Proof. apply time_comma_form; reflexivity. Defined.

(** [normalize_time_values] passes an absent [-t] on, lets through
    exactly three texts, none empty and each already stripped, and ends
    every other value of [-t] on the usage error. *)
Theorem normalize_time_values_outcomes (raw : option (list string)) :
  match normalize_time_values raw with
  | Ok None => raw = None
  | Ok (Some values) =>
      raw <> None
      /\ exists t0 t1 t2, values = [t0; t1; t2]
           /\ Py.strip t0 = t0 /\ Py.strip t1 = t1 /\ Py.strip t2 = t2
           /\ t0 <> "" /\ t1 <> "" /\ t2 <> ""
  | Raise e => raw <> None /\ e = ParserError time_usage
  end.
Proof.
  destruct (normalize_time_values raw) as [[values|]|e] eqn:E.
  - split; [by intros ->|]. by eapply normalize_time_values_ok.
  - destruct raw; [|done]. unfold normalize_time_values in E.
    by destruct (_ || _).
  - split; [by intros ->|]. by eapply normalize_time_values_raises.
Qed.

Lemma default_config_text_ok : exists text, default_config_text = Ok text.
Proof. eexists. reflexivity. Qed.



(** *** What a run does to the files *)

(** A run leaves the files as they were, or returns 0 after writing the
    config path in write-config or save-config mode. *)
Lemma main_effect env args fs r fs' :
  main env args fs = (r, fs') ->
  fs' = fs
  \/ (exists text out,
        fs' = <[config_path_of env args := text]> fs
        /\ r = Ok (Exit out 0)
        /\ (arg_write_config args = true \/ arg_save_config args = true)).
Proof.
  unfold main, write_config, save_config. intros Hrun.
  repeat (case_match; simplify_eq/=); eauto 10.
Qed.

(** A run never creates, changes or removes a file other than the one at
    the config path. *)
Theorem main_touches_only_config_path
    (env : Env) (args : Args) (fs : gmap string string) (other : string) :
  other <> config_path_of env args ->
  (main env args fs).2 !! other = fs !! other.
Proof.
  intros Hother. destruct (main env args fs) as [r fs'] eqn:Hrun. simpl.
  apply main_effect in Hrun as [->|(text & out & -> & _)]; [done|].
  by rewrite lookup_insert_ne.
Qed.

Lemma main_touches_only_config_path_witness :
  (main sample_env save_config_only ∅).2 !! "/home/user/notes.txt"
  = (∅ : gmap string string) !! "/home/user/notes.txt".
Proof.
  apply (main_touches_only_config_path sample_env save_config_only ∅
           "/home/user/notes.txt").
  discriminate.
Defined.

(** Files change only in a run of write-config or save-config mode that
    returns 0: a run that shows the status, counts down or ends on an
    error writes nothing. *)
Theorem main_writes_only_on_success
    (env : Env) (args : Args) (fs : gmap string string) :
  (main env args fs).2 <> fs ->
  (arg_write_config args = true \/ arg_save_config args = true)
  /\ exists out, (main env args fs).1 = Ok (Exit out 0).
Proof.
  destruct (main env args fs) as [r fs'] eqn:Hrun. simpl. intros Hne.
  apply main_effect in Hrun as [->|(text & out & -> & -> & Hmode)]; [done|].
  eauto.
Qed.

Lemma main_writes_only_on_success_witness :
  arg_write_config write_config_only = true \/ arg_save_config write_config_only = true.
Proof.
  apply (main_writes_only_on_success sample_env write_config_only ∅).
  intros Heq.
  assert (Hfile : (main sample_env write_config_only ∅).2 !! sample_path
                  = (∅ : gmap string string) !! sample_path) by (by rewrite Heq).
  vm_compute in Hfile. discriminate Hfile.
Defined.

(** *** Write-config mode *)

Lemma main_write_config_ok env args fs out fs' :
  arg_write_config args = true ->
  main env args fs = (Ok out, fs') ->
  arg_save_config args = false /\ arg_status args = false
  /\ supplied (arg_time args) = false /\ supplied (arg_compact args) = false
  /\ supplied (arg_no_bell args) = false /\ supplied (arg_bar_width args) = false
  /\ write_config fs (config_path_of env args) (arg_force args) = Ok fs'.
Proof.
  intros Hwrite. unfold main. rewrite Hwrite.
  destruct (convert_bar_width _) as [cb|] eqn:Hcb; [|done].
  destruct (normalize_time_values _) as [ct|] eqn:Hct; [|done].
  rewrite (normalize_time_values_supplied _ _ Hct).
  rewrite (convert_bar_width_supplied _ _ Hcb).
  rewrite andb_false_r, andb_true_r. simpl.
  destruct (arg_save_config args); [done|].
  destruct (arg_status args); [done|]. simpl.
  destruct (supplied (arg_time args)); [done|].
  destruct (supplied (arg_compact args)); [done|].
  destruct (supplied (arg_no_bell args)); [done|].
  destruct (supplied (arg_bar_width args)); [done|]. simpl.
  destruct (write_config _ _ _) as [fs1|[]]; try done.
  by intros [= _ <-].
Qed.

Lemma main_write_config_run env args fs :
  arg_write_config args = true ->
  arg_save_config args = false -> arg_status args = false ->
  supplied (arg_time args) = false -> supplied (arg_compact args) = false ->
  supplied (arg_no_bell args) = false -> supplied (arg_bar_width args) = false ->
  main env args fs =
    match write_config fs (config_path_of env args) (arg_force args) with
    | Raise (FileExistsError msg) => (Raise (ParserError msg), fs)
    | Raise e => (Raise e, fs)
    | Ok fs' => (Ok (Exit ["Wrote config: " +:+ config_path_of env args] 0), fs')
    end.
Proof.
  intros Hwrite Hsave Hstatus Ht Hc Hn Hb. unfold main.
  destruct (arg_time args); [done|]. destruct (arg_bar_width args); [done|].
  simpl. rewrite Hwrite, Hsave, Hstatus, Hc, Hn. simpl.
  by rewrite andb_false_r.
Qed.

(** After a run of write-config mode has returned, the same command line
    fails on the existing file and changes nothing, unless [--force] is
    given, and then it returns again and the files are as the first run
    left them. *)
Theorem write_config_twice
    (env : Env) (args : Args) (fs fs1 : gmap string string) (out : finished) :
  arg_write_config args = true ->
  main env args fs = (Ok out, fs1) ->
  main env (with_force args false) fs1
  = (Raise (ParserError ("config file already exists: " +:+ config_path_of env args)), fs1)
  /\ main env (with_force args true) fs1
     = (Ok (Exit ["Wrote config: " +:+ config_path_of env args] 0), fs1).
Proof.
  intros Hwrite Hrun.
  apply main_write_config_ok in Hrun as (Hsave & Hstatus & Ht & Hc & Hn & Hb & Hw);
    [|done].
  unfold write_config in Hw. fold default_config_text in Hw.
  destruct default_config_text_ok as [text Htext]. rewrite Htext in Hw.
  destruct (_ && _); [done|]. simpl in Hw. injection Hw as <-.
  split.
  - rewrite (main_write_config_run env (with_force args false)) by done.
    unfold write_config. simpl. change (config_path_of env (with_force args false))
      with (config_path_of env args).
    rewrite lookup_insert_eq. rewrite bool_decide_eq_true_2 by by eexists. done.
  - rewrite (main_write_config_run env (with_force args true)) by done.
    unfold write_config. fold default_config_text. rewrite Htext. simpl.
    change (config_path_of env (with_force args true)) with (config_path_of env args).
    rewrite andb_false_r. by rewrite insert_insert_eq.
Qed.

Lemma write_config_twice_witness :
  exists fs1,
    main sample_env (with_force write_config_only false) fs1
    = (Raise (ParserError ("config file already exists: " +:+ sample_path)), fs1)
    /\ main sample_env (with_force write_config_only true) fs1
       = (Ok (Exit ["Wrote config: " +:+ sample_path] 0), fs1).
Proof.
  destruct default_config_text_ok as [text Htext].
  exists (<[sample_path := text]> ∅).
  apply (write_config_twice sample_env write_config_only ∅ _
           (Exit ["Wrote config: " +:+ sample_path] 0) eq_refl).
  rewrite (main_write_config_run sample_env write_config_only) by done.
  unfold write_config. fold default_config_text. rewrite Htext. done.
Defined.

(** *** Status mode and the start of the countdown *)

(** A run of status mode that returns has resolved the settings in the
    normal way (command line, then config file, then defaults), prints
    them, stripped, with their sources, returns 0 and leaves the files
    alone; it never starts the countdown. *)
Theorem status_mode_reports
    (env : Env) (args : Args) (fs fs' : gmap string string) (out : finished) :
  arg_status args = true ->
  main env args fs = (Ok out, fs') ->
  fs' = fs
  /\ exists cli_bar_width cli_time config t0 t1 t2,
       convert_bar_width (arg_bar_width args) = Ok cli_bar_width
       /\ normalize_time_values (arg_time args) = Ok cli_time
       /\ load_config env fs (config_path_of env args) = Ok config
       /\ let r := resolve_settings false cli_time (arg_compact args)
                     (arg_no_bell args) cli_bar_width config in
          r_time_values r = [t0; t1; t2]
          /\ out = Exit (status_lines (config_path_of env args)
                           (Py.strip t0) (Py.strip t1) (Py.strip t2)
                           (r_compact r) (r_no_bell r) (r_bar_width r)
                           (r_sources r)) 0.
Proof.
  intros Hstatus. unfold main. rewrite Hstatus.
  destruct (convert_bar_width _) as [cb|] eqn:Hcb; [|done].
  destruct (normalize_time_values _) as [ct|] eqn:Hct; [|done].
  destruct (arg_force args && negb (arg_write_config args)); [done|].
  destruct (arg_write_config args); [by destruct (arg_save_config args)|]. simpl.
  destruct (arg_save_config args); [done|].
  destruct (load_config _ _ _) as [config|[]] eqn:Hload; try done.
  pose proof (resolved_time_length env fs _ config _ ct false (arg_compact args)
                (arg_no_bell args) cb Hload Hct) as Hlen.
  set (r := resolve_settings false ct (arg_compact args) (arg_no_bell args) cb config)
    in *.
  destruct (validate r) as [[[[focus rest] repeats] width]|] eqn:Hvalid; [|done].
  pose proof Hvalid as (? & ? & ? & ? & _ & _ & _ & _ & Hw)%validate_ok.
  apply parse_bar_width_str_int_inv in Hw as [-> _].
  destruct (r_time_values r) as [|t0 [|t1 [|t2 [|t3 more]]]] eqn:Htime; try done.
  simpl. intros [= <- <-]. split; [done|].
  exists cb, ct, config, t0, t1, t2. repeat split; done.
Qed.

Lemma status_mode_reports_witness :
  exists config t0 t1 t2,
    load_config sample_env {[ sample_path := "bar_width = 15" ]}
      (config_path_of sample_env status_only) = Ok config
    /\ r_time_values (resolve_settings false None None None None config) = [t0; t1; t2].
Proof.
  assert (Hrun : main sample_env status_only {[ sample_path := "bar_width = 15" ]}
                 = (Ok (Exit (status_lines sample_path "30" "5" "0" false false 15
                                {| src_time := "default"; src_compact := "default";
                                   src_no_bell := "default";
                                   src_bar_width := "config" |}) 0),
                    {[ sample_path := "bar_width = 15" ]}))
    by (vm_compute; reflexivity).
  destruct (status_mode_reports sample_env status_only _ _ _ eq_refl Hrun)
    as (_ & cb & ct & config & t0 & t1 & t2 & Hcb & Hct & Hload & Htime & _).
  injection Hcb as <-. injection Hct as <-.
  exists config, t0, t1, t2. split; [exact Hload|exact Htime].
Defined.

Lemma build_stages_durations focus rest repeats st :
  st ∈ build_stages focus rest repeats -> st.2 = focus \/ st.2 = rest.
Proof.
  rewrite build_stages_pairs. intros Hin. apply list_elem_of_In, in_flat_map in Hin
    as (cycle & _ & [<-|[<-|[]]]); auto.
Qed.

(** The countdown starts only in a plain timer run, on settings that
    hold the invariants: every stage lasts at least a second, there is at
    least one focus and one rest stage, the bar is at least 10 wide, and
    nothing has been written. *)
Theorem countdown_starts_valid
    (env : Env) (args : Args) (fs fs' : gmap string string)
    (stages : list stage) (compact : bool) (width : Z) (no_bell : bool) :
  main env args fs = (Ok (Countdown stages compact width no_bell), fs') ->
  fs' = fs
  /\ arg_write_config args = false /\ arg_status args = false
  /\ arg_save_config args = false
  /\ MIN_BAR_WIDTH <= width
  /\ (2 <= length stages)%nat
  /\ Forall (fun st : stage => 0 < st.2) stages.
Proof.
  intros Hrun.
  pose proof (main_countdown _ _ _ _ _ _ _ _ Hrun)
    as (focus & rest & repeats & Hf & Hr & Hrep & Hw & -> & ->).
  assert (Hflags : arg_write_config args = false /\ arg_status args = false
                   /\ arg_save_config args = false).
  { unfold main in Hrun. repeat (case_match; simplify_eq/=); done. }
  destruct Hflags as (? & ? & ?). repeat split; try done.
  - rewrite build_stages_pairs, length_pairs, range_length. lia.
  - apply Forall_forall. intros st [-> | ->]%build_stages_durations; done.
Qed.

Lemma countdown_starts_valid_witness :
  Forall (fun st : stage => 0 < st.2) (build_stages 1 1 0).
Proof.
  apply (countdown_starts_valid sample_env one_second_quiet ∅ ∅
           (build_stages 1 1 0) false 30 true).
  vm_compute. reflexivity.
Defined.

(** *** The second check of the bar width *)

Lemma load_bar_width_min path data w :
  load_bar_width path data = Ok (Some w) -> MIN_BAR_WIDTH <= w.
Proof.
  unfold load_bar_width. destruct (data !! "bar_width") as [[]|]; try done.
  all: destruct (parse_bar_width _) as [w'|] eqn:E; [|done]; simpl.
  all: intros [= <-]; by eapply parse_bar_width_min.
Qed.

Lemma load_config_bar_width_min env fs path config w :
  load_config env fs path = Ok config -> cfg_bar_width config = Some w ->
  MIN_BAR_WIDTH <= w.
Proof.
  unfold load_config. destruct (fs !! path) as [text|]; [|by intros [= <-]].
  destruct (toml_load env text) as [[]|[]]; simpl; try done.
  destruct (unknown_keys m); [|done].
  destruct (load_time path m); [|done]. simpl.
  destruct (load_bool path "compact" m); [|done]. simpl.
  destruct (load_bool path "no_bell" m); [|done]. simpl.
  destruct (load_bar_width path m) as [bw|] eqn:Eb; [|done]. simpl.
  intros [= <-]. simpl. intros ->. by eapply load_bar_width_min.
Qed.

Lemma resolved_bar_width mode cli_time c n b config :
  r_bar_width (resolve_settings mode cli_time c n b config)
  = match b with
    | Some v => v
    | None => if mode then DEFAULT_BAR_WIDTH
              else default DEFAULT_BAR_WIDTH (cfg_bar_width config)
    end.
Proof.
  destruct config as [ft fc fn fb].
  by destruct mode, cli_time, c, n, b, ft, fc, fn, fb.
Qed.

Lemma parse_duration_messages value e :
  parse_duration value = Raise e ->
  e = ArgumentTypeError invalid_time_format \/ e = ArgumentTypeError time_not_positive.
Proof.
  unfold parse_duration. destruct (fullmatch_duration _) as [[g1 g2]|];
    [|intros [= <-]; auto].
  destruct (_ <=? _); [intros [= <-]; auto|].
  by destruct (String.eqb _ "m").
Qed.

Lemma parse_repeat_message value e :
  parse_repeat value = Raise e -> e = ArgumentTypeError repeat_not_integer.
Proof.
  unfold parse_repeat. destruct (fullmatch_digits _) eqn:Hm; simpl;
    [|by intros [= <-]].
  apply fullmatch_digits_iff, matches_digits_iff in Hm as [_ Hall%int_nonneg].
  destruct (Z.ltb_spec (Py.int (Py.strip value)) 0); [lia|done].
Qed.

(** Once the command line is converted and the config loaded, the bar
    width [main] checks again is always valid: the validation of the
    resolved settings can only fail on the time triple, with one of the
    three messages of [parse_duration] and [parse_repeat]. *)
Theorem validation_fails_on_time_only
    (env : Env) (fs : gmap string string) (path : string) (config : Config)
    (raw_width : option string) (raw_time : option (list string))
    (cli_bar_width : option Z) (cli_time : option (list string))
    (mode : bool) (c n : option bool) (e : exn) :
  convert_bar_width raw_width = Ok cli_bar_width ->
  normalize_time_values raw_time = Ok cli_time ->
  load_config env fs path = Ok config ->
  validate (resolve_settings mode cli_time c n cli_bar_width config) = Raise e ->
  e = ParserError invalid_time_format
  \/ e = ParserError time_not_positive
  \/ e = ParserError repeat_not_integer.
Proof.
  intros Hcb Hct Hload.
  pose proof (resolved_time_length env fs path config raw_time cli_time mode c n
                cli_bar_width Hload Hct) as Hlen.
  assert (Hwidth : MIN_BAR_WIDTH <=
            r_bar_width (resolve_settings mode cli_time c n cli_bar_width config)).
  { rewrite resolved_bar_width. destruct cli_bar_width as [w|].
    - by eapply convert_bar_width_min.
    - destruct mode; [done|]. destruct (cfg_bar_width config) eqn:Hw; [|done].
      simpl. by eapply load_config_bar_width_min. }
  unfold validate, getitem.
  destruct (r_time_values _) as [|t0 [|t1 [|t2 [|t3 more]]]]; try done. simpl.
  rewrite (parse_bar_width_str_int _ Hwidth).
  destruct (parse_duration t0) as [f|e0] eqn:E0; simpl.
  2:{ apply parse_duration_messages in E0 as [-> | ->]; intros [= <-]; auto. }
  destruct (parse_duration t1) as [r|e1] eqn:E1; simpl.
  2:{ apply parse_duration_messages in E1 as [-> | ->]; intros [= <-]; auto. }
  destruct (parse_repeat t2) as [k|e2] eqn:E2; simpl; [done|].
  apply parse_repeat_message in E2 as ->. intros [= <-]. auto.
Qed.

Lemma validation_fails_on_time_only_witness :
  ParserError invalid_time_format = ParserError invalid_time_format
  \/ ParserError invalid_time_format = ParserError time_not_positive
  \/ ParserError invalid_time_format = ParserError repeat_not_integer.
Proof.
  apply (validation_fails_on_time_only sample_env ∅ sample_path empty_config
           None (Some ["x"; "5"; "0"]) None (Some ["x"; "5"; "0"]) false None None);
    reflexivity.
Defined.

(** *** What the config file may hold *)

Lemma unknown_keys_nil (data : gmap string pyval) :
  unknown_keys data = [] <-> forall key, is_Some (data !! key) -> key ∈ allowed_keys.
Proof.
  split.
  - intros Hnil key Hkey. destruct (decide (key ∈ allowed_keys)) as [|Hnot]; [done|].
    assert (key ∈ unknown_keys data) as Hin by (by apply elem_of_unknown_keys).
    rewrite Hnil in Hin. by apply elem_of_nil in Hin.
  - intros Hall. destruct (unknown_keys data) as [|k ks] eqn:E; [done|].
    assert (k ∈ unknown_keys data) as [Hk Hnot]%elem_of_unknown_keys
      by (rewrite E; apply elem_of_cons; auto).
    by apply Hall in Hk.
Qed.

Lemma normalize_items_ok path items texts :
  normalize_items path items = Ok texts
  <-> Forall2 (fun item text => item_text item = Some text) items texts.
Proof.
  revert texts. induction items as [|item items IH]; intros texts; simpl.
  - split; [intros [= <-]; constructor|by intros ->%Forall2_nil_inv_l].
  - split.
    + destruct item; simpl; try done;
        destruct (normalize_items path items) as [l|] eqn:E; simpl; try done;
        intros [= <-]; constructor; try done; by apply IH.
    + intros (text & texts' & Hitem & Hrest & ->)%Forall2_cons_inv_l.
      apply IH in Hrest. rewrite Hrest.
      destruct item; simpl in *; by simplify_eq.
Qed.

Lemma load_time_ok path data time :
  load_time path data = Ok time
  <-> match data !! "time" with
      | None => time = None
      | Some v =>
          exists items texts,
            v = PList items /\ length items = 3%nat
            /\ Forall2 (fun item text => item_text item = Some text) items texts
            /\ time = Some texts
      end.
Proof.
  unfold load_time. destruct (data !! "time") as [v|]; [|by split; intros [= <-]].
  split.
  - destruct v; try done. destruct (length xs =? 3)%nat eqn:Hlen; [|done]. simpl.
    destruct (normalize_items path xs) as [l|] eqn:E; [|done]. simpl.
    intros [= <-]. exists xs, l. apply Nat.eqb_eq in Hlen.
    repeat split; try done. by apply normalize_items_ok in E.
  - intros (items & texts & -> & Hlen & Hitems & ->).
    apply Nat.eqb_eq in Hlen. rewrite Hlen. simpl.
    apply (normalize_items_ok path) in Hitems. by rewrite Hitems.
Qed.

Lemma load_bool_ok path key data value :
  load_bool path key data = Ok value
  <-> match data !! key with
      | None => value = None
      | Some v => exists b, v = PBool b /\ value = Some b
      end.
Proof.
  unfold load_bool. destruct (data !! key) as [v|]; [|by split; intros [= <-]].
  split.
  - destruct v; try done. intros [= <-]. eauto.
  - by intros (b & -> & ->).
Qed.

Lemma load_bar_width_ok path data value :
  load_bar_width path data = Ok value
  <-> match data !! "bar_width" with
      | None => value = None
      | Some v => exists n, v = PInt n /\ MIN_BAR_WIDTH <= n /\ value = Some n
      end.
Proof.
  unfold load_bar_width. destruct (data !! "bar_width") as [v|];
    [|by split; intros [= <-]].
  split.
  - destruct v; try done.
    + destruct (parse_bar_width (Py.str_int n)) as [w|] eqn:E; [|done]. simpl.
      intros [= <-]. apply parse_bar_width_str_int_inv in E as [-> Hmin]. eauto.
    + by destruct b.
  - intros (n & -> & Hmin & ->). by rewrite parse_bar_width_str_int.
Qed.

(** [load_config] accepts a table exactly when all its keys are among
    the four, [time] (when present) is an array of three strings,
    integers or booleans, [compact] and [no_bell] (when present) are
    booleans, and [bar_width] (when present) is an integer, not a
    boolean, of at least 10.  The config then holds the keys present:
    [time] as the three texts [str(item)], which are not checked any
    further here, and the other values as they are. *)
Theorem load_config_accepts
    (env : Env) (fs : gmap string string) (path text : string)
    (data : gmap string pyval) (config : Config) :
  fs !! path = Some text ->
  toml_load env text = Ok (PDict data) ->
  load_config env fs path = Ok config
  <-> (forall key, is_Some (data !! key) -> key ∈ allowed_keys)
      /\ match data !! "time" with
         | None => cfg_time config = None
         | Some v =>
             exists items texts,
               v = PList items /\ length items = 3%nat
               /\ Forall2 (fun item text => item_text item = Some text) items texts
               /\ cfg_time config = Some texts
         end
      /\ match data !! "compact" with
         | None => cfg_compact config = None
         | Some v => exists b, v = PBool b /\ cfg_compact config = Some b
         end
      /\ match data !! "no_bell" with
         | None => cfg_no_bell config = None
         | Some v => exists b, v = PBool b /\ cfg_no_bell config = Some b
         end
      /\ match data !! "bar_width" with
         | None => cfg_bar_width config = None
         | Some v =>
             exists n, v = PInt n /\ MIN_BAR_WIDTH <= n /\ cfg_bar_width config = Some n
         end.
Proof.
  intros Hfile Hparse. unfold load_config. rewrite Hfile, Hparse.
  rewrite <- unknown_keys_nil.
  rewrite <- (load_time_ok path), <- (load_bool_ok path "compact"),
    <- (load_bool_ok path "no_bell"), <- (load_bar_width_ok path).
  remember (unknown_keys data) as keys eqn:Hkeys. simpl. rewrite <- Hkeys.
  destruct keys as [|k ks]; [|split; [done|by intros [? _]]].
  destruct (load_time path data) as [time|]; simpl;
    [|split; [done|by intros (_ & ? & _)]].
  destruct (load_bool path "compact" data) as [compact|]; simpl;
    [|split; [done|by intros (_ & _ & ? & _)]].
  destruct (load_bool path "no_bell" data) as [no_bell|]; simpl;
    [|split; [done|by intros (_ & _ & _ & ? & _)]].
  destruct (load_bar_width path data) as [bar_width|]; simpl;
    [|split; [done|by intros (_ & _ & _ & _ & ?)]].
  split.
  - by intros [= <-].
  - destruct config. simpl. by intros (_ & [= ->] & [= ->] & [= ->] & [= ->]).
Qed.

Lemma load_config_accepts_witness :
  load_config sample_env {[ sample_path := "time = [1, 1, 1]" ]} sample_path
  = Ok {| cfg_time := Some ["1"; "1"; "1"]; cfg_compact := None;
          cfg_no_bell := None; cfg_bar_width := None |}.
Proof.
  apply (load_config_accepts sample_env {[ sample_path := "time = [1, 1, 1]" ]}
           sample_path "time = [1, 1, 1]"
           {[ "time" := PList [PInt 1; PInt 1; PInt 1] ]}); [reflexivity..|].
  split; [|split; [|done]].
  - intros key [v Hv]. apply lookup_singleton_Some in Hv as [<- _].
    unfold allowed_keys. set_solver.
  - exists [PInt 1; PInt 1; PInt 1], ["1"; "1"; "1"].
    repeat split; try done. by repeat constructor.
Defined.

Lemma load_config_table env fs path text data :
  fs !! path = Some text ->
  toml_load env text = Ok (PDict data) ->
  unknown_keys data = [] ->
  load_config env fs path =
    (let* time := load_time path data in
     let* compact := load_bool path "compact" data in
     let* no_bell := load_bool path "no_bell" data in
     let* bar_width := load_bar_width path data in
     Ok {| cfg_time := time; cfg_compact := compact;
           cfg_no_bell := no_bell; cfg_bar_width := bar_width |}).
Proof.
  intros Hfile Hparse Hkeys. unfold load_config. rewrite Hfile, Hparse.
  cbn [bind]. by rewrite Hkeys.
Qed.

(** The text of an integer below 10, or of a boolean, is refused by
    [parse_bar_width]. *)
Lemma parse_bar_width_refuses v :
  (exists n, v = PInt n /\ n < 10) \/ (exists b, v = PBool b) ->
  exists msg,
    parse_bar_width (match v with
                     | PInt n => Py.str_int n
                     | PBool b => Py.str_bool b
                     | _ => ""
                     end) = Raise (ArgumentTypeError msg)
    /\ (msg = bar_width_not_integer \/ msg = bar_width_too_small).
Proof.
  intros [(n & -> & Hn)|[b ->]].
  - unfold parse_bar_width. destruct (Z.lt_ge_cases n 0) as [Hneg|Hpos].
    + rewrite fullmatch_digits_negative by done. cbn [negb]. eauto.
    + destruct (int_str_int n Hpos) as (Hint & Hall & Hne).
      rewrite strip_digits by done.
      assert (fullmatch_digits (Py.str_int n) = true) as ->
        by (apply fullmatch_digits_iff, matches_digits_iff; done).
      cbn [negb]. rewrite Hint.
      destruct (Z.ltb_spec n MIN_BAR_WIDTH) as [|Hge]; [eauto|].
      unfold MIN_BAR_WIDTH in Hge. lia.
  - exists bar_width_not_integer. split; [|by left]. by destruct b.
Qed.

(** A config file whose only key is a [bar_width] that is an integer
    below 10, or a boolean, stops every run that loads the config, also
    one that gives [--bar-width] itself or only shows the status: the
    [ArgumentTypeError] of [parse_bar_width] leaves [main] uncaught, with
    exit status 1 and no file changed. *)
Theorem config_bad_bar_width_stops_every_run
    (env : Env) (args : Args) (fs : gmap string string) (text : string) (v : pyval)
    (cli_bar_width : option Z) (cli_time : option (list string)) :
  convert_bar_width (arg_bar_width args) = Ok cli_bar_width ->
  normalize_time_values (arg_time args) = Ok cli_time ->
  arg_force args = false ->
  arg_write_config args = false ->
  arg_status args && arg_save_config args = false ->
  fs !! config_path_of env args = Some text ->
  toml_load env text = Ok (PDict {[ "bar_width" := v ]}) ->
  (exists n, v = PInt n /\ n < 10) \/ (exists b, v = PBool b) ->
  exists msg,
    main env args fs = (Raise (ArgumentTypeError msg), fs)
    /\ (msg = bar_width_not_integer \/ msg = bar_width_too_small)
    /\ exit_status (main env args fs).1 = Some 1.
Proof.
  intros Hcb Hct Hforce Hwrite Hboth Hfile Hparse Hbad.
  assert (Hload : exists msg,
            load_config env fs (config_path_of env args) = Raise (ArgumentTypeError msg)
            /\ (msg = bar_width_not_integer \/ msg = bar_width_too_small)).
  { destruct (parse_bar_width_refuses v Hbad) as (msg & Hmsg & Hwhich).
    exists msg. split; [|exact Hwhich].
    rewrite (load_config_table env fs _ text _ Hfile Hparse)
      by (unfold unknown_keys; by rewrite map_to_list_singleton).
    unfold load_time, load_bool, load_bar_width.
    rewrite (lookup_singleton_ne "bar_width" "time" v) by discriminate.
    rewrite (lookup_singleton_ne "bar_width" "compact" v) by discriminate.
    rewrite (lookup_singleton_ne "bar_width" "no_bell" v) by discriminate.
    rewrite lookup_singleton_eq. cbn [bind].
    destruct Hbad as [(n & -> & _)|[b ->]]; cbn [bind] in *;
      rewrite Hmsg; reflexivity. }
  destruct Hload as (msg & Hload & Hmsg). exists msg.
  assert (Hrun : main env args fs = (Raise (ArgumentTypeError msg), fs)).
  { unfold main. rewrite Hcb, Hct, Hforce, Hwrite, Hload.
    rewrite andb_false_r. cbn [andb negb]. by rewrite Hboth. }
  rewrite Hrun. done.
Qed.

Lemma config_bad_bar_width_stops_every_run_witness :
  exists msg,
    main sample_env status_only {[ sample_path := "bar_width = 5" ]}
    = (Raise (ArgumentTypeError msg), {[ sample_path := "bar_width = 5" ]})
    /\ (msg = bar_width_not_integer \/ msg = bar_width_too_small)
    /\ exit_status (main sample_env status_only {[ sample_path := "bar_width = 5" ]}).1
       = Some 1.
Proof.
  apply (config_bad_bar_width_stops_every_run sample_env status_only
           {[ sample_path := "bar_width = 5" ]} "bar_width = 5" (PInt 5) None None);
    try reflexivity.
  left. exists 5. split; [reflexivity|lia].
Defined.

(** * Further properties of the display *)

Lemma length_append (a b : string) :
  String.length (a +:+ b) = (String.length a + String.length b)%nat.
Proof.
  induction a as [|c a IH]; [done|]. rewrite append_cons. simpl. by rewrite IH.
Qed.

Lemma str_int_one_digit n :
  0 <= n < 10 -> Py.str_int n = String (Py.digit_char n) "".
Proof.
  intros Hn. unfold Py.str_int, Py.str_nonneg.
  destruct (Z.ltb_spec n 0); [lia|].
  destruct (Z.to_nat (Z.log2 n)); simpl.
  - by rewrite Z.mod_small by lia.
  - destruct (Z.ltb_spec n 10); [|lia]. by rewrite Z.mod_small by lia.
Qed.

Lemma str_int_two_digits n :
  10 <= n < 100 ->
  Py.str_int n = String (Py.digit_char (n / 10)) (String (Py.digit_char (n mod 10)) "").
Proof.
  intros Hn. unfold Py.str_int, Py.str_nonneg.
  destruct (Z.ltb_spec n 0); [lia|].
  assert (3 <= Z.log2 n) as Hlog by (apply Z.log2_le_pow2; lia).
  destruct (Z.to_nat (Z.log2 n)) as [|fuel] eqn:Hfuel; [lia|]. simpl.
  destruct (Z.ltb_spec n 10); [lia|].
  assert (0 <= n / 10 < 10) as Hq
    by (split; [apply Z.div_pos; lia|apply Z.div_lt_upper_bound; lia]).
  destruct fuel; simpl.
  - by rewrite (Z.mod_small (n / 10)) by lia.
  - destruct (Z.ltb_spec (n / 10) 10); [|lia].
    by rewrite (Z.mod_small (n / 10)) by lia.
Qed.

(** A field of the display: digits only, standing for the number, two
    of them below 100. *)
Lemma fmt_02d_spec n :
  0 <= n ->
  Py.all_digits (fmt_02d n) = true
  /\ Py.int (fmt_02d n) = n
  /\ (n < 100 -> String.length (fmt_02d n) = 2%nat).
Proof.
  intros Hn. unfold fmt_02d. destruct (Z.leb_spec 0 n); [|lia]. simpl.
  destruct (Z.ltb_spec n 10) as [Hsmall|Hbig].
  - rewrite str_int_one_digit by lia.
    rewrite append_cons, append_empty_l. unfold Py.int. simpl.
    change (Py.code "0") with 48.
    rewrite isdigit_digit_char, code_digit_char by lia. repeat split; lia || done.
  - destruct (int_str_int n Hn) as (Hint & Hall & _). repeat split; try done.
    intros Hlt. by rewrite str_int_two_digits by lia.
Qed.

Lemma format_hhmmss_fields seconds :
  format_hhmmss seconds
  = fmt_02d (seconds / 3600)
      +:+ String ":" (fmt_02d (seconds mod 3600 / 60)
      +:+ String ":" (fmt_02d (seconds mod 3600 mod 60))).
Proof. reflexivity. Qed.

Lemma span_digits_field d rest :
  Py.all_digits d = true -> span_digits (d +:+ String ":" rest) = (d, String ":" rest).
Proof. intros Hd. by apply span_digits_app. Qed.

Lemma span_digits_all d : Py.all_digits d = true -> span_digits d = (d, "").
Proof.
  intros Hd. rewrite <- (append_empty_r d) at 1. by apply span_digits_app.
Qed.

Lemma format_hhmmss_read seconds :
  0 <= seconds -> read_hhmmss (format_hhmmss seconds) = Some seconds.
Proof.
  intros Hs.
  pose proof (Z.div_pos seconds 3600 Hs ltac:(lia)) as Hh.
  pose proof (Z.mod_pos_bound seconds 3600 ltac:(lia)) as Hrem.
  pose proof (Z.div_pos (seconds mod 3600) 60 ltac:(lia) ltac:(lia)) as Hm.
  pose proof (Z.mod_pos_bound (seconds mod 3600) 60 ltac:(lia)) as Hsec.
  destruct (fmt_02d_spec _ Hh) as (Hd1 & Hi1 & _).
  destruct (fmt_02d_spec _ Hm) as (Hd2 & Hi2 & _).
  destruct (fmt_02d_spec (seconds mod 3600 mod 60) ltac:(lia)) as (Hd3 & Hi3 & _).
  rewrite format_hhmmss_fields. unfold read_hhmmss.
  rewrite span_digits_field by done. rewrite span_digits_field by done.
  rewrite span_digits_all by done. simpl. rewrite Hi1, Hi2, Hi3. f_equal.
  pose proof (Z.div_mod seconds 3600 ltac:(lia)).
  pose proof (Z.div_mod (seconds mod 3600) 60 ltac:(lia)). lia.
Qed.

(** For a duration that is not negative the display [H:MM:SS] can be
    read back to the very number of seconds, so two durations never look
    the same; the hours are not wrapped at 24; and below 100 hours the
    display is always eight characters wide. *)
Theorem format_hhmmss_reads_back (seconds : Z) :
  0 <= seconds ->
  read_hhmmss (format_hhmmss seconds) = Some seconds
  /\ (forall other, 0 <= other ->
        format_hhmmss other = format_hhmmss seconds -> other = seconds)
  /\ (seconds < 360000 -> String.length (format_hhmmss seconds) = 8%nat).
Proof.
  intros Hs. split; [by apply format_hhmmss_read|]. split.
  - intros other Ho Heq.
    pose proof (format_hhmmss_read other Ho) as Hread.
    rewrite Heq, format_hhmmss_read in Hread by done. by injection Hread.
  - intros Hlt.
    pose proof (Z.div_pos seconds 3600 Hs ltac:(lia)) as Hh.
    assert (seconds / 3600 < 100) as Hh' by (apply Z.div_lt_upper_bound; lia).
    pose proof (Z.mod_pos_bound seconds 3600 ltac:(lia)) as Hrem.
    pose proof (Z.div_pos (seconds mod 3600) 60 ltac:(lia) ltac:(lia)) as Hm.
    assert (seconds mod 3600 / 60 < 100) as Hm'
      by (apply Z.div_lt_upper_bound; lia).
    pose proof (Z.mod_pos_bound (seconds mod 3600) 60 ltac:(lia)) as Hsec.
    destruct (fmt_02d_spec _ Hh) as (_ & _ & Hl1).
    destruct (fmt_02d_spec _ Hm) as (_ & _ & Hl2).
    destruct (fmt_02d_spec (seconds mod 3600 mod 60) ltac:(lia)) as (_ & _ & Hl3).
    rewrite format_hhmmss_fields, length_append. simpl.
    rewrite length_append. simpl.
    rewrite Hl1, Hl2, Hl3 by lia. done.
Qed.

Lemma format_hhmmss_reads_back_witness :
  read_hhmmss (format_hhmmss 90000) = Some 90000
  /\ String.length (format_hhmmss 90000) = 8%nat.
Proof.
  destruct (format_hhmmss_reads_back 90000 ltac:(lia)) as (Hread & _ & Hlen).
  split; [exact Hread|]. apply Hlen. lia.
Defined.

(** *** The bar at the end of a stage *)

Lemma shr_1_nonneg mrs : 0 <= shr_m mrs -> 0 <= shr_m (shr_1 mrs).
Proof.
  destruct mrs as [m r s]. simpl. destruct m as [|[p|p|]|p]; simpl; lia.
Qed.

Lemma iter_pos_shr_1_nonneg p mrs :
  0 <= shr_m mrs -> 0 <= shr_m (SpecFloat.iter_pos shr_1 p mrs).
Proof.
  revert mrs. induction p as [p IH|p IH|]; intros mrs Hm; simpl.
  - apply IH, IH. by apply shr_1_nonneg.
  - by apply IH, IH.
  - by apply shr_1_nonneg.
Qed.

Lemma shr_fexp_nonneg m e l :
  0 <= m -> 0 <= shr_m (shr_fexp PyFloat.prec PyFloat.emax m e l).1.
Proof.
  intros Hm. unfold shr_fexp, shr.
  assert (0 <= shr_m (shr_record_of_loc m l)) as Hrec
    by (destruct l as [|[]]; simpl; lia).
  destruct (_ - e) as [|p|p]; simpl; try done.
  by apply iter_pos_shr_1_nonneg.
Qed.

Lemma round_nearest_even_nonneg m l : 0 <= m -> 0 <= round_nearest_even m l.
Proof.
  intros Hm. unfold round_nearest_even.
  destruct l as [|[]]; try lia. destruct (Z.even m); lia.
Qed.

Lemma binary_round_aux_not_nan sx mx ex lx :
  0 <= mx -> binary_round_aux PyFloat.prec PyFloat.emax sx mx ex lx <> S754_nan.
Proof.
  intros Hm. unfold binary_round_aux.
  pose proof (shr_fexp_nonneg mx ex lx Hm) as H1.
  destruct (shr_fexp PyFloat.prec PyFloat.emax mx ex lx) as [mrs' e']. simpl in H1.
  pose proof (shr_fexp_nonneg _ e' loc_Exact
                (round_nearest_even_nonneg _ (loc_of_shr_record mrs') H1)) as H2.
  destruct (shr_fexp _ _ _ e' loc_Exact) as [mrs'' e'']. simpl in H2.
  destruct (shr_m mrs'') as [|p|p]; try done. by destruct (_ <=? _).
Qed.

(** [float(n)] is never a NaN. *)
Lemma of_int_not_nan n g : PyFloat.of_int n = Ok g -> g <> S754_nan.
Proof.
  unfold PyFloat.of_int, binary_normalize, binary_round.
  destruct n as [|p|p].
  - by intros [= <-].
  - destruct (shl_align _ _ _) as [mz ez].
    pose proof (binary_round_aux_not_nan false (Z.pos mz) ez loc_Exact ltac:(lia)).
    destruct (binary_round_aux _ _ _ _ _ _); try done; by intros [= <-].
  - destruct (shl_align _ _ _) as [mz ez].
    pose proof (binary_round_aux_not_nan true (Z.pos mz) ez loc_Exact ltac:(lia)).
    destruct (binary_round_aux _ _ _ _ _ _); try done; by intros [= <-].
Qed.

Lemma of_int_not_infinity n g s : PyFloat.of_int n = Ok g -> g <> S754_infinity s.
Proof.
  unfold PyFloat.of_int. destruct (binary_normalize _ _ _ _ _); try done;
    by intros [= <-].
Qed.

Lemma filled_count_zero_total remaining width : filled_count remaining 0 width = Ok 0.
Proof. reflexivity. Qed.

Lemma filled_count_at_zero total width :
  filled_count 0 total width
  = if total =? 0 then Ok 0
    else match PyFloat.of_int width with
         | Ok _ => Ok 0
         | Raise e => Raise e
         end.
Proof.
  unfold filled_count. destruct (Z.eqb_spec total 0) as [->|Hne]; [done|].
  assert (PyFloat.int_truediv 0 total = Ok (S754_zero (total <? 0))) as ->
    by (by destruct total).
  cbn [bind number_mul_int].
  destruct (PyFloat.of_int width) as [g|e] eqn:Hg; [|done]. cbn [bind number_to_int].
  pose proof (of_int_not_nan _ _ Hg).
  pose proof (of_int_not_infinity _ _ true Hg).
  pose proof (of_int_not_infinity _ _ false Hg).
  by destruct g as [|[]| |].
Qed.

(** When nothing remains the bar is empty, [width] times "-" between
    the brackets, for every duration; the only other outcome is the
    [OverflowError] of [float(width)] for a width too large for a float
    (and then only if the duration is not 0). *)
Theorem build_bar_empty_at_zero (total width : Z) :
  (forall g, PyFloat.of_int width = Ok g ->
     build_bar 0 total width = Ok ("[" +:+ Py.repeat_char "-" width +:+ "]"))
  /\ (forall e, PyFloat.of_int width = Raise e -> total <> 0 ->
        build_bar 0 total width = Raise e
        /\ e = OverflowError "int too large to convert to float")
  /\ build_bar 0 0 width = Ok ("[" +:+ Py.repeat_char "-" width +:+ "]").
Proof.
  unfold build_bar. rewrite filled_count_at_zero. repeat split.
  - intros g ->. destruct (total =? 0); cbn [bind]; by rewrite render_bar_empty.
  - destruct (Z.eqb_spec total 0); [done|]. by rewrite H.
  - unfold PyFloat.of_int in H. by destruct (binary_normalize _ _ _ _ _); simplify_eq.
  - rewrite filled_count_zero_total. cbn [bind]. by rewrite render_bar_empty.
Qed.

Lemma build_bar_empty_at_zero_witness :
  build_bar 0 1500 40 = Ok ("[" +:+ Py.repeat_char "-" 40 +:+ "]").
Proof.
  eapply (proj1 (build_bar_empty_at_zero 1500 40)). vm_compute. reflexivity.
Defined.

(** *** The bar over a stage *)

Lemma bar_shape_upto_30 : bar_shape_upto 30 = true.
Proof. vm_compute. reflexivity. Qed.

Lemma bar_shape_upto_spec bound remaining total width :
  bar_shape_upto bound = true ->
  0 <= remaining <= total -> 0 < total <= bound -> 0 <= width <= bound ->
  bar_shape_ok remaining total width = true.
Proof.
  unfold bar_shape_upto. intros Hall Hr Ht Hw.
  apply (forallb_elem _ _ total) in Hall; [|apply range_elem; lia].
  apply (forallb_elem _ _ remaining) in Hall; [|apply range_elem; lia].
  apply (forallb_elem _ _ width) in Hall; [|apply range_elem; lia].
  exact Hall.
Qed.

Lemma length_repeat_char c n : String.length (Py.repeat_char c n) = Z.to_nat n.
Proof.
  unfold Py.repeat_char. induction (Z.to_nat n) as [|k IH]; [done|].
  simpl. by rewrite IH.
Qed.

Lemma length_render_bar filled width :
  0 <= filled <= width -> String.length (render_bar filled width) = (Z.to_nat width + 2)%nat.
Proof.
  intros Hf. unfold render_bar.
  rewrite !length_append, !length_repeat_char. simpl. lia.
Qed.

(** For durations and widths up to 30 the bar is well formed all through
    a stage: [width] cells between the brackets, all of them filled when
    the whole duration remains, none when nothing remains, and never more
    filled cells than one second earlier. *)
Theorem build_bar_shape (remaining total width : Z) :
  0 <= remaining <= total -> 0 < total <= 30 -> 0 <= width <= 30 ->
  exists filled,
    build_bar remaining total width
    = Ok ("[" +:+ Py.repeat_char "#" filled
              +:+ Py.repeat_char "-" (width - filled) +:+ "]")
    /\ 0 <= filled <= width
    /\ String.length ("[" +:+ Py.repeat_char "#" filled
                          +:+ Py.repeat_char "-" (width - filled) +:+ "]")
       = (Z.to_nat width + 2)%nat
    /\ (remaining = total -> filled = width)
    /\ (remaining = 0 -> filled = 0)
    /\ (0 < remaining ->
        exists later, filled_count (remaining - 1) total width = Ok later
                      /\ later <= filled).
Proof.
  intros Hr Ht Hw.
  pose proof (bar_shape_upto_spec 30 remaining total width
                bar_shape_upto_30 Hr Ht Hw) as Hok.
  unfold bar_shape_ok in Hok. unfold build_bar.
  destruct (filled_count remaining total width) as [filled|]; [|done].
  apply andb_prop in Hok as [Hok Hlater]. apply andb_prop in Hok as [Hok Hzero].
  apply andb_prop in Hok as [Hok Hfull]. apply andb_prop in Hok as [Hlo Hhi].
  apply Z.leb_le in Hlo, Hhi.
  exists filled. split; [done|]. split; [done|].
  split; [by apply (length_render_bar filled width)|]. repeat split.
  - intros ->. apply orb_prop in Hfull as [Hlt%Z.ltb_lt|Heq%Z.eqb_eq]; [lia|done].
  - intros ->. apply orb_prop in Hzero as [Hlt%Z.ltb_lt|Heq%Z.eqb_eq]; [lia|done].
  - intros Hpos. apply orb_prop in Hlater as [Heq%Z.eqb_eq|Hlater]; [lia|].
    destruct (filled_count (remaining - 1) total width) as [later|]; [|done].
    exists later. split; [done|]. by apply Z.leb_le.
Qed.

Lemma build_bar_shape_witness :
  exists filled,
    build_bar 20 25 30
    = Ok ("[" +:+ Py.repeat_char "#" filled
              +:+ Py.repeat_char "-" (30 - filled) +:+ "]")
    /\ 0 <= filled <= 30.
Proof.
  destruct (build_bar_shape 20 25 30) as (filled & Hbar & Hrange & _); [lia..|].
  exists filled. split; [exact Hbar|exact Hrange].
Defined.

(** * The countdown runner *)

Lemma remaining_at_early total elapsed :
  0 <= elapsed < total -> remaining_at total elapsed = total - elapsed.
Proof. unfold remaining_at. lia. Qed.

Lemma remaining_at_expired total elapsed :
  total <= elapsed -> remaining_at total elapsed = 0.
Proof. unfold remaining_at. lia. Qed.

(** The loop of a stage shows one line for each reading of the clock,
    computed from that reading alone, and stops at the first reading at
    which the duration has passed, however the readings are spaced: the
    last line shows nothing remaining, the bell follows it exactly when it
    is enabled and the stage is not the last, and the readings after it
    are left for the next stage.  An interrupt before that ends the stage
    at once, with no bell. *)
Theorem stage_ends_at_first_expiry
    (stage_name : string) (total_seconds bar_width : Z) (ring is_last : bool)
    (early : list Z) (rest : list tick) :
  bar_defined total_seconds bar_width ->
  0 <= total_seconds ->
  Forall (fun elapsed => 0 <= elapsed < total_seconds) early ->
  exists lines,
    Forall2 (fun elapsed line =>
               exists bar,
                 build_bar (total_seconds - elapsed) total_seconds bar_width = Ok bar
                 /\ line = countdown_line stage_name (total_seconds - elapsed) bar)
            early lines
    /\ (forall final, total_seconds <= final ->
          exists bar,
            build_bar 0 total_seconds bar_width = Ok bar
            /\ countdown_loop stage_name total_seconds bar_width ring is_last
                 ((Reading <$> early) ++ Reading final :: rest)
               = (lines ++ countdown_line stage_name 0 bar
                           :: (if ring && negb is_last then [BEL] else []),
                  Completed, rest))
    /\ countdown_loop stage_name total_seconds bar_width ring is_last
         ((Reading <$> early) ++ Interrupt :: rest)
       = (lines, Interrupted, rest)
    /\ countdown_loop stage_name total_seconds bar_width ring is_last
         (Reading <$> early)
       = (lines, Running, []).
Proof.
  intros Hbar Htotal Hearly.
  induction Hearly as [|elapsed early Helapsed _ IH].
  - exists []. split; [constructor|]. split; [|done].
    intros final Hfinal. destruct (Hbar 0 ltac:(lia)) as [bar Hb].
    exists bar. split; [done|]. simpl.
    rewrite remaining_at_expired by done. by rewrite Hb.
  - destruct IH as (lines & Hlines & Hdone & Hint & Hrun).
    destruct (Hbar (total_seconds - elapsed) ltac:(lia)) as [bar Hb].
    exists (countdown_line stage_name (total_seconds - elapsed) bar :: lines).
    assert (Hstep : forall ticks,
              countdown_loop stage_name total_seconds bar_width ring is_last
                (Reading elapsed :: ticks)
              = let '(out, how, rest') :=
                  countdown_loop stage_name total_seconds bar_width ring is_last ticks in
                (countdown_line stage_name (total_seconds - elapsed) bar :: out,
                 how, rest')).
    { intros ticks. simpl. rewrite remaining_at_early by done. rewrite Hb.
      destruct (Z.eqb_spec (total_seconds - elapsed) 0); [lia|done]. }
    split; [constructor; eauto|]. split; [|split].
    + intros final Hfinal. destruct (Hdone final Hfinal) as (bar0 & Hb0 & Hloop).
      exists bar0. split; [done|].
      rewrite fmap_cons, <- app_comm_cons, Hstep, Hloop. done.
    + rewrite fmap_cons, <- app_comm_cons, Hstep, Hint. done.
    + rewrite fmap_cons, Hstep, Hrun. done.
Qed.

Lemma bar_defined_upto_30 total width :
  0 < total <= 30 -> 0 <= width <= 30 -> bar_defined total width.
Proof.
  intros Ht Hw remaining Hr.
  destruct (build_bar_bounded remaining total width Hr Ht Hw) as (filled & Hf & _).
  unfold build_bar. rewrite Hf. eauto.
Qed.

Lemma stage_ends_at_first_expiry_witness :
  exists lines bar,
    length lines = 3%nat
    /\ countdown_loop "Focus 1/1" 10 30 true false
         [Reading 0; Reading 4; Reading 9; Reading 12; Reading 13]
       = (lines ++ [countdown_line "Focus 1/1" 0 bar; BEL], Completed, [Reading 13]).
Proof.
  destruct (stage_ends_at_first_expiry "Focus 1/1" 10 30 true false [0; 4; 9]
              [Reading 13])
    as (lines & Hlines & Hdone & _).
  - apply bar_defined_upto_30; lia.
  - lia.
  - repeat constructor; lia.
  - destruct (Hdone 12 ltac:(lia)) as (bar & _ & Hloop).
    exists lines, bar. split; [|exact Hloop].
    apply Forall2_length in Hlines. by rewrite <- Hlines.
Defined.

(** *** What the runner prints *)

Lemma stage_chunk_no_cursor chunk :
  stage_chunk chunk -> chunk <> SHOW_CURSOR /\ chunk <> HIDE_CURSOR.
Proof. by intros []. Qed.

Lemma stage_chunk_bell chunk :
  stage_chunk chunk -> chunk = BEL \/ bells [chunk] = 0%nat.
Proof.
  intros []; auto; right; unfold bells; by rewrite filter_cons_False.
Qed.

Lemma bells_app out1 out2 : bells (out1 ++ out2) = (bells out1 + bells out2)%nat.
Proof. unfold bells. by rewrite filter_app, length_app. Qed.

Lemma bells_cons_line name remaining bar out :
  bells (countdown_line name remaining bar :: out) = bells out.
Proof. unfold bells. by rewrite filter_cons_False. Qed.

Lemma countdown_loop_chunks name total width ring is_last ticks :
  Forall stage_chunk (countdown_loop name total width ring is_last ticks).1.1.
Proof.
  induction ticks as [|[elapsed|] ticks IH]; simpl; try by constructor.
  destruct (build_bar _ _ _) as [bar|]; simpl; [|by constructor].
  destruct (_ =? 0).
  - simpl. constructor; [constructor|].
    destruct (ring && negb is_last); repeat constructor.
  - destruct (countdown_loop _ _ _ _ _ ticks) as [[out how] rest']. simpl in *.
    constructor; [constructor|done].
Qed.

Lemma countdown_loop_bells name total width ring is_last ticks :
  bells (countdown_loop name total width ring is_last ticks).1.1
  = match (countdown_loop name total width ring is_last ticks).1.2 with
    | Completed => if ring && negb is_last then 1%nat else 0%nat
    | _ => 0%nat
    end.
Proof.
  induction ticks as [|[elapsed|] ticks IH]; simpl; try done.
  destruct (build_bar _ _ _) as [bar|]; simpl; [|done].
  destruct (_ =? 0).
  - simpl. rewrite bells_cons_line. by destruct (ring && negb is_last).
  - destruct (countdown_loop _ _ _ _ _ ticks) as [[out how] rest']. simpl in *.
    by rewrite bells_cons_line.
Qed.

Lemma stage_header_chunks name start_text end_text compact :
  Forall stage_chunk (stage_header name start_text end_text compact)
  /\ bells (stage_header name start_text end_text compact) = 0%nat.
Proof.
  unfold stage_header. destruct compact; split; try done; repeat constructor.
Qed.

Lemma run_stage_chunks wall name total compact width ring is_last ticks :
  Forall stage_chunk (run_stage wall name total compact width ring is_last ticks).1.1.
Proof.
  unfold run_stage. destruct (wall total) as [[start_text end_text]|]; [|by constructor].
  pose proof (countdown_loop_chunks name total width ring is_last ticks) as Hloop.
  destruct (countdown_loop _ _ _ _ _ ticks) as [[out how] rest]. simpl in Hloop.
  destruct (stage_header_chunks name start_text end_text compact) as [Hhead _].
  destruct how; simpl; repeat (apply Forall_app; split); try done.
  repeat constructor.
Qed.

Lemma run_stage_bells wall name total compact width ring is_last ticks :
  bells (run_stage wall name total compact width ring is_last ticks).1.1
  = match (run_stage wall name total compact width ring is_last ticks).1.2 with
    | Completed => if ring && negb is_last then 1%nat else 0%nat
    | _ => 0%nat
    end.
Proof.
  unfold run_stage. destruct (wall total) as [[start_text end_text]|]; [|done].
  pose proof (countdown_loop_bells name total width ring is_last ticks) as Hloop.
  destruct (countdown_loop _ _ _ _ _ ticks) as [[out how] rest]. simpl in Hloop.
  destruct (stage_header_chunks name start_text end_text compact) as [_ Hhead].
  destruct how; simpl; rewrite !bells_app, Hhead, Hloop; done.
Qed.

Lemma run_stages_chunks wall stages index count compact width no_bell ticks :
  Forall stage_chunk
    (run_stages wall stages index count compact width no_bell ticks).1.1.
Proof.
  revert index ticks. induction stages as [|[name secs] later IH]; intros index ticks;
    simpl; [by constructor|].
  pose proof (run_stage_chunks wall name secs compact width (negb no_bell)
                (index =? count - 1) ticks) as Hstage.
  destruct (run_stage _ _ _ _ _ _ _ ticks) as [[out how] rest]. simpl in Hstage.
  destruct how; simpl; try done.
  specialize (IH (index + 1) rest).
  destruct (run_stages _ later _ _ _ _ _ rest) as [[out' how'] rest']. simpl in *.
  by apply Forall_app.
Qed.

(** The bells of the stages from [index] on, in a sequence of [count]
    stages of which these are the last. *)
Lemma run_stages_bells wall stages index count compact width no_bell ticks :
  index + Z.of_nat (length stages) = count ->
  0 <= index ->
  (run_stages wall stages index count compact width no_bell ticks).1.2 = Completed ->
  bells (run_stages wall stages index count compact width no_bell ticks).1.1
  = if no_bell then 0%nat else (length stages - 1)%nat.
Proof.
  revert index ticks. induction stages as [|[name secs] later IH];
    intros index ticks Hcount Hindex; simpl.
  - by destruct no_bell.
  - pose proof (run_stage_bells wall name secs compact width (negb no_bell)
                  (index =? count - 1) ticks) as Hstage.
    destruct (run_stage _ _ _ _ _ _ _ ticks) as [[out how] rest]. simpl in Hstage.
    destruct how; simpl; try done.
    specialize (IH (index + 1) rest).
    destruct (run_stages _ later _ _ _ _ _ rest) as [[out' how'] rest']. simpl in *.
    intros ->. rewrite bells_app, Hstage, IH by (done || lia).
    destruct no_bell; simpl; [done|].
    destruct (Z.eqb_spec index (count - 1)) as [Heq|Hne]; simpl.
    + destruct later; simpl in *; lia.
    + destruct later; simpl in *; lia.
Qed.

Lemma run_stage_completes wall name total compact width ring is_last early final rest :
  (exists texts, wall total = Ok texts) ->
  bar_defined total width -> 0 <= total ->
  Forall (fun elapsed => 0 <= elapsed < total) early -> total <= final ->
  exists out,
    run_stage wall name total compact width ring is_last
      (((Reading <$> early) ++ [Reading final]) ++ rest)
    = (out, Completed, rest).
Proof.
  intros [[start_text end_text] Hwall] Hbar Htotal Hearly Hfinal.
  unfold run_stage. rewrite Hwall.
  revert Hearly. induction 1 as [|elapsed early Helapsed _ IH].
  - destruct (Hbar 0 ltac:(lia)) as [bar Hb]. simpl.
    rewrite remaining_at_expired by done. rewrite Hb. simpl. eauto.
  - destruct (Hbar (total - elapsed) ltac:(lia)) as [bar Hb].
    rewrite fmap_cons, <- !app_comm_cons. simpl.
    rewrite remaining_at_early by done. rewrite Hb.
    destruct (Z.eqb_spec (total - elapsed) 0); [lia|].
    destruct IH as [out IH].
    destruct (countdown_loop _ _ _ _ _ _) as [[out' how] rest'].
    destruct how; simplify_eq. eauto.
Qed.

Lemma run_stages_cons wall name secs later index count compact width no_bell ticks :
  run_stages wall ((name, secs) :: later) index count compact width no_bell ticks
  = let '(out, how, rest) :=
      run_stage wall name secs compact width (negb no_bell) (index =? count - 1) ticks in
    match how with
    | Completed =>
        let '(out', how', rest') :=
          run_stages wall later (index + 1) count compact width no_bell rest in
        (out ++ out', how', rest')
    | _ => (out, how, rest)
    end.
Proof. reflexivity. Qed.

(** A run whose clock reaches the end of every stage completes: with a
    wall clock and a bar that are defined for each duration, and ticks
    that give, stage after stage, readings before the duration has passed
    and then one at or after it, the countdown goes through all the
    stages and [main] returns 0. *)
Theorem countdown_completes
    (wall : Z -> result (string * string)) (stages : list stage)
    (compact : bool) (bar_width : Z) (no_bell : bool)
    (readings : list (list Z * Z)) :
  Forall2 (fun (st : stage) (rd : list Z * Z) =>
             (exists texts, wall st.2 = Ok texts)
             /\ bar_defined st.2 bar_width /\ 0 <= st.2
             /\ Forall (fun elapsed => 0 <= elapsed < st.2) rd.1
             /\ st.2 <= rd.2)
          stages readings ->
  exists out,
    countdown wall stages compact bar_width no_bell
      (concat ((fun rd : list Z * Z => (Reading <$> rd.1) ++ [Reading rd.2])
                 <$> readings))
    = (out, Completed, Some 0).
Proof.
  intros Hall. unfold countdown.
  cut (forall index count rest,
         exists out,
           run_stages wall stages index count compact bar_width no_bell
             (concat ((fun rd : list Z * Z => (Reading <$> rd.1) ++ [Reading rd.2])
                        <$> readings) ++ rest)
           = (out, Completed, rest)).
  { intros Hcut. destruct (Hcut 0 (Z.of_nat (length stages)) []) as [out Hout].
    rewrite app_nil_r in Hout. rewrite Hout. eauto. }
  induction Hall as [|[name secs] [early final] stages readings
                      (Hwall & Hbar & Hsecs & Hearly & Hfinal) _ IH];
    intros index count rest.
  - simpl. eauto.
  - destruct (run_stage_completes wall name secs compact bar_width (negb no_bell)
                (index =? count - 1) early final
                (concat ((fun rd : list Z * Z => (Reading <$> rd.1) ++ [Reading rd.2])
                           <$> readings) ++ rest)
                Hwall Hbar Hsecs Hearly Hfinal) as [out Hout].
    rewrite run_stages_cons, fmap_cons, concat_cons. cbn [fst snd].
    rewrite <- (app_assoc _ (concat _) rest). rewrite Hout.
    destruct (IH (index + 1) count rest) as [out' ->]. eauto.
Qed.

Lemma countdown_completes_witness :
  exists out,
    countdown noon (build_stages 1 1 0) false 30 true
      (concat ((fun rd : list Z * Z => (Reading <$> rd.1) ++ [Reading rd.2])
                 <$> [([0], 1); ([0], 1)]))
    = (out, Completed, Some 0).
Proof.
  apply (countdown_completes noon (build_stages 1 1 0) false 30 true
           [([0], 1); ([0], 1)]).
  repeat constructor; simpl; try lia; try (by eexists);
    apply bar_defined_upto_30; lia.
Defined.

(** However the countdown stops, the cursor is shown again: hidden once
    at the start, it is shown once, after everything the stages print,
    when the run completes (before the "Done!" line, [main] returning
    0), when it is interrupted (after "Cancelled.", [main] returning
    130) and when an exception leaves it; the stages never print a
    cursor code themselves. *)
Theorem countdown_restores_cursor
    (wall : Z -> result (string * string)) (stages : list stage)
    (compact : bool) (bar_width : Z) (no_bell : bool) (ticks : list tick) :
  exists body,
    Forall (fun chunk => chunk <> SHOW_CURSOR /\ chunk <> HIDE_CURSOR) body
    /\ match countdown wall stages compact bar_width no_bell ticks with
       | (out, Completed, status) =>
           status = Some 0
           /\ out = ["Pomdot v1.0" +:+ nl; HIDE_CURSOR] ++ body
                      ++ [SHOW_CURSOR; done_text no_bell]
       | (out, Interrupted, status) =>
           status = Some 130
           /\ out = ["Pomdot v1.0" +:+ nl; HIDE_CURSOR] ++ body
                      ++ [nl +:+ "Cancelled." +:+ nl; SHOW_CURSOR]
       | (out, Failed e, status) =>
           status = None
           /\ out = ["Pomdot v1.0" +:+ nl; HIDE_CURSOR] ++ body ++ [SHOW_CURSOR]
       | (out, Running, status) =>
           status = None /\ out = ["Pomdot v1.0" +:+ nl; HIDE_CURSOR] ++ body
       end.
Proof.
  unfold countdown.
  pose proof (run_stages_chunks wall stages 0 (Z.of_nat (length stages)) compact
                bar_width no_bell ticks) as Hchunks.
  destruct (run_stages _ _ _ _ _ _ _ _) as [[out how] rest]. simpl in Hchunks.
  exists out. split.
  - eapply Forall_impl; [exact Hchunks|]. intros chunk. apply stage_chunk_no_cursor.
  - by destruct how.
Qed.

(** A run that completes rings the bell alone once for each passage from
    a stage to the next, that is one time less than there are stages, and
    not at all under [no_bell]; the last stage rings none, the bell of the
    end being part of the "Done!" line. *)
Theorem completed_run_bells
    (wall : Z -> result (string * string)) (stages : list stage)
    (compact : bool) (bar_width : Z) (no_bell : bool) (ticks : list tick)
    (out : list string) (status : option Z) :
  countdown wall stages compact bar_width no_bell ticks = (out, Completed, status) ->
  bells out = (if no_bell then 0 else length stages - 1)%nat
  /\ last out = Some (if no_bell then nl +:+ "Done!" +:+ nl
                      else nl +:+ "Done!" +:+ BEL +:+ nl).
Proof.
  unfold countdown.
  pose proof (run_stages_bells wall stages 0 (Z.of_nat (length stages)) compact
                bar_width no_bell ticks ltac:(lia) ltac:(lia)) as Hbells.
  destruct (run_stages _ _ _ _ _ _ _ _) as [[body how] rest]. simpl in Hbells.
  destruct how; try done. intros [= <- <-].
  assert (Htail : bells [SHOW_CURSOR; done_text no_bell] = 0%nat)
    by (by destruct no_bell).
  split.
  - change (bells ([APP_NAME +:+ " v" +:+ APP_VERSION +:+ nl; HIDE_CURSOR]
                     ++ body ++ [SHOW_CURSOR; done_text no_bell])
            = (if no_bell then 0 else length stages - 1)%nat).
    rewrite !bells_app, Hbells, Htail by done.
    change (bells [APP_NAME +:+ " v" +:+ APP_VERSION +:+ nl; HIDE_CURSOR]) with 0%nat.
    lia.
  - change (last (([APP_NAME +:+ " v" +:+ APP_VERSION +:+ nl; HIDE_CURSOR] ++ body)
                    ++ [SHOW_CURSOR] ++ [done_text no_bell])
            = Some (if no_bell then nl +:+ "Done!" +:+ nl
                    else nl +:+ "Done!" +:+ BEL +:+ nl)).
    rewrite !app_assoc, last_snoc. by destruct no_bell.
Qed.

Lemma completed_run_bells_witness :
  exists out,
    countdown noon (build_stages 1 1 0) false 30 true
      [Reading 0; Reading 1; Reading 0; Reading 1]
    = (out, Completed, Some 0)
    /\ bells out = 0%nat.
Proof.
  destruct (countdown noon (build_stages 1 1 0) false 30 true
              [Reading 0; Reading 1; Reading 0; Reading 1])
    as [[out how] status] eqn:Hrun.
  assert (how = Completed /\ status = Some 0) as [-> ->].
  { apply (f_equal (fun r : list string * stop * option Z => (r.1.2, r.2))) in Hrun.
    vm_compute in Hrun. by injection Hrun as <- <-. }
  exists out. split; [reflexivity|].
  apply (completed_run_bells noon (build_stages 1 1 0) false 30 true _ _ _ Hrun).
Defined.
